(** * WRPLL divider search of [tools/hsw_compute_wrpll.c]

    A shallow embedding of the Haswell WRPLL divider computation: the
    budget selector [wrpll_get_budget_for_freq], the best-triplet update
    rule [wrpll_update_rnp], the bounded enumeration of
    [wrpll_compute_rnp], the reference table [wrpll_tmds_clock_table] and
    the checking loop of [main].

    C integers are modelled as [Z] with the wrap-around of their type
    written out: [uint64_t] arithmetic is reduced modulo [2^64] and
    [unsigned] arithmetic modulo [2^32]. *)

From Stdlib Require Import ZArith List Bool Lia Sorted Uint63.
Import ListNotations.

Local Open Scope Z_scope.

(** ** Constants of the source *)

Definition LC_FREQ : Z := 2700.
Definition LC_FREQ_2K : Z := LC_FREQ * 2000.

Definition P_MIN : Z := 2.
Definition P_MAX : Z := 64.
Definition P_INC : Z := 2.

Definition REF_MIN : Z := 48.
Definition REF_MAX : Z := 400.
Definition VCO_MIN : Z := 2400.
Definition VCO_MAX : Z := 4800.

Definition INT_MAX : Z := 2147483647.

(** ** Machine arithmetic *)

Module Machine.

(** Values of [uint64_t] and of [unsigned]. *)
Definition u64 (x : Z) : Z := x mod 2 ^ 64.
Definition u32 (x : Z) : Z := x mod 2 ^ 32.

Definition mul64 (x y : Z) : Z := u64 (x * y).
Definition sub64 (x y : Z) : Z := u64 (x - y).
Definition mul32 (x y : Z) : Z := u32 (x * y).
Definition add32 (x y : Z) : Z := u32 (x + y).
(** [unsigned] division; the divisors of the source are non-zero constants. *)
Definition div32 (x y : Z) : Z := u32 (x / y).

(** [ABS_DIFF(a, b)] at type [uint64_t]: [(a > b) ? (a - b) : (b - a)]. *)
Definition ABS_DIFF (a b : Z) : Z :=
  if a >? b then sub64 a b else sub64 b a.

Definition in_u64 (x : Z) : Prop := 0 <= x < 2 ^ 64.
Definition in_u32 (x : Z) : Prop := 0 <= x < 2 ^ 32.

End Machine.
Import Machine.

(** ** The divider triplet *)

(** [struct wrpll_rnp { unsigned p, n2, r2; }]. *)
Record wrpll_rnp : Type := mk_rnp { rnp_p : Z; rnp_n2 : Z; rnp_r2 : Z }.

(** The zeroed record [{ 0, 0, 0 }] a search starts from. *)
Definition rnp_zero : wrpll_rnp := mk_rnp 0 0 0.

Definition rnp_eqb (x y : wrpll_rnp) : bool :=
  (rnp_p x =? rnp_p y) && (rnp_n2 x =? rnp_n2 y) && (rnp_r2 x =? rnp_r2 y).

(** ** Budget selector *)

(** The [switch (clock)] of the source, one pattern per [case] label. *)
Definition wrpll_get_budget_for_freq (clock : Z) : Z :=
  match clock with
  | 25175000 | 25200000 | 27000000 | 27027000 | 37762500 | 37800000 |
  40500000 | 40541000 | 54000000 | 54054000 | 59341000 | 59400000 |
  72000000 | 74176000 | 74250000 | 81000000 | 81081000 | 89012000 |
  89100000 | 108000000 | 108108000 | 111264000 | 111375000 | 148352000 |
  148500000 | 162000000 | 162162000 | 222525000 | 222750000 | 296703000 |
  297000000 =>
      0
  | 233500000 | 245250000 | 247750000 | 253250000 | 298000000 =>
      1500
  | 169128000 | 169500000 | 179500000 | 202000000 =>
      2000
  | 256250000 | 262500000 | 270000000 | 272500000 | 273750000 | 280750000 |
  281250000 | 286000000 | 291750000 =>
      4000
  | 267250000 | 268500000 =>
      5000
  | _ =>
      1000
  end.

(** The [case] labels of the five non-default tiers, tier by tier. *)
Definition budget_0_clocks : list Z :=
  [25175000; 25200000; 27000000; 27027000; 37762500; 37800000; 40500000;
   40541000; 54000000; 54054000; 59341000; 59400000; 72000000; 74176000;
   74250000; 81000000; 81081000; 89012000; 89100000; 108000000; 108108000;
   111264000; 111375000; 148352000; 148500000; 162000000; 162162000;
   222525000; 222750000; 296703000; 297000000].

Definition budget_1500_clocks : list Z :=
  [233500000; 245250000; 247750000; 253250000; 298000000].

Definition budget_2000_clocks : list Z :=
  [169128000; 169500000; 179500000; 202000000].

Definition budget_4000_clocks : list Z :=
  [256250000; 262500000; 270000000; 272500000; 273750000; 280750000;
   281250000; 286000000; 291750000].

Definition budget_5000_clocks : list Z :=
  [267250000; 268500000].

Definition budget_tiers : list (Z * list Z) :=
  [(0, budget_0_clocks); (1500, budget_1500_clocks);
   (2000, budget_2000_clocks); (4000, budget_4000_clocks);
   (5000, budget_5000_clocks)].

Definition listed_clocks : list Z := flat_map snd budget_tiers.

Definition mem (x : Z) (l : list Z) : bool := existsb (Z.eqb x) l.

(** Lookup of a clock in the tiers, with the default of the [switch]. *)
Fixpoint tier_lookup (clock : Z) (tiers : list (Z * list Z)) : Z :=
  match tiers with
  | [] => 1000
  | (b, cs) :: rest => if mem clock cs then b else tier_lookup clock rest
  end.

Definition budget_values : list Z := [0; 1000; 1500; 2000; 4000; 5000].

(** ** Best-triplet update *)

Section Update.

Variables freq2k budget : Z.

(** [freq2k * budget * p * r2] at [uint64_t]: the values [a] and [b]. *)
Definition budget_term (p r2 : Z) : Z :=
  mul64 (mul64 (mul64 freq2k budget) p) r2.

(** [ABS_DIFF((freq2k * p * r2), (LC_FREQ_2K * n2))]: [diff] and
    [diff_best].  The first product is [uint64_t], the second is
    [int * unsigned], an [unsigned] product. *)
Definition clock_diff (r2 n2 p : Z) : Z :=
  ABS_DIFF (mul64 (mul64 freq2k p) r2) (mul32 LC_FREQ_2K n2).

(** [1000000 * diff] at [uint64_t]: the values [c] and [d]. *)
Definition scaled_diff (diff : Z) : Z := mul64 1000000 diff.

(** [p * r2 * diff]: an [unsigned] product widened by [diff]. *)
Definition cross_term (p r2 diff : Z) : Z := mul64 (mul32 p r2) diff.

(** [n2 * r2 * r2] at [unsigned]. *)
Definition vco_term (n2 r2 : Z) : Z := mul32 (mul32 n2 r2) r2.

Definition wrpll_update_rnp (r2 n2 p : Z) (best : wrpll_rnp) : wrpll_rnp :=
  if rnp_p best =? 0 then mk_rnp p n2 r2
  else
    let a := budget_term p r2 in
    let b := budget_term (rnp_p best) (rnp_r2 best) in
    let diff := clock_diff r2 n2 p in
    let diff_best := clock_diff (rnp_r2 best) (rnp_n2 best) (rnp_p best) in
    let c := scaled_diff diff in
    let d := scaled_diff diff_best in
    if (a <? c) && (b <? d) then
      if cross_term (rnp_p best) (rnp_r2 best) diff
         <? cross_term p r2 diff_best
      then mk_rnp p n2 r2 else best
    else if (a >=? c) && (b <? d) then mk_rnp p n2 r2
    else if (a >=? c) && (b >=? d) then
      if vco_term n2 (rnp_r2 best) >? vco_term (rnp_n2 best) r2
      then mk_rnp p n2 r2 else best
    else best.

(** A candidate is within the budget when [a >= c] holds for it. *)
Definition within_budget (t : wrpll_rnp) : bool :=
  budget_term (rnp_p t) (rnp_r2 t)
  >=? scaled_diff (clock_diff (rnp_r2 t) (rnp_n2 t) (rnp_p t)).

Definition update_with (best t : wrpll_rnp) : wrpll_rnp :=
  wrpll_update_rnp (rnp_r2 t) (rnp_n2 t) (rnp_p t) best.

End Update.

(** ** Divider search *)

(** The values a counter takes in [for (i = lo; i <= hi; i += step)],
    in order, for a positive [step]. *)
Fixpoint count_from (n : nat) (lo step : Z) : list Z :=
  match n with
  | O => []
  | S k => lo :: count_from k (lo + step) step
  end.

Definition for_range (lo hi step : Z) : list Z :=
  count_from (Z.to_nat ((hi - lo + step) / step)) lo step.

(** [for (r2 = LC_FREQ * 2 / REF_MAX + 1; r2 <= LC_FREQ * 2 / REF_MIN; r2++)] *)
Definition r2_range : list Z :=
  for_range (LC_FREQ * 2 / REF_MAX + 1) (LC_FREQ * 2 / REF_MIN) 1.

(** [for (n2 = VCO_MIN * r2 / LC_FREQ + 1; n2 <= VCO_MAX * r2 / LC_FREQ; n2++)] *)
Definition n2_lo (r2 : Z) : Z := add32 (div32 (mul32 VCO_MIN r2) LC_FREQ) 1.
Definition n2_hi (r2 : Z) : Z := div32 (mul32 VCO_MAX r2) LC_FREQ.
Definition n2_range (r2 : Z) : list Z := for_range (n2_lo r2) (n2_hi r2) 1.

(** [for (p = P_MIN; p <= P_MAX; p += P_INC)] *)
Definition p_range : list Z := for_range P_MIN P_MAX P_INC.

Definition p_loop (freq2k budget r2 n2 : Z) (best : wrpll_rnp) : wrpll_rnp :=
  fold_left (fun b p => wrpll_update_rnp freq2k budget r2 n2 p b) p_range best.

Definition n2_loop (freq2k budget r2 : Z) (best : wrpll_rnp) : wrpll_rnp :=
  fold_left (fun b n2 => p_loop freq2k budget r2 n2 b) (n2_range r2) best.

Definition r2_loop (freq2k budget : Z) (best : wrpll_rnp) : wrpll_rnp :=
  fold_left (fun b r2 => n2_loop freq2k budget r2 b) r2_range best.

(** The fixed triplet of the 540 MHz bypass: [n2 = 2], [p = 1], [r2 = 2]. *)
Definition rnp_bypass : wrpll_rnp := mk_rnp 1 2 2.

(** [freq2k = clock / 100]: C division of an [int] truncates towards
    zero, the quotient is then converted to [uint64_t]. *)
Definition freq2k_of (clock : Z) : Z := u64 (Z.quot clock 100).

(** [wrpll_compute_rnp] with the budget selector it calls as a parameter;
    the result is the record written to the three out-parameters. *)
Definition wrpll_compute_rnp_with (budget_for : Z -> Z) (clock : Z)
  : wrpll_rnp :=
  let freq2k := freq2k_of clock in
  let budget := budget_for clock in
  if freq2k =? 5400000 then rnp_bypass
  else r2_loop freq2k budget rnp_zero.

Definition wrpll_compute_rnp (clock : Z) : wrpll_rnp :=
  wrpll_compute_rnp_with wrpll_get_budget_for_freq clock.

(** The candidates in the order the three loops visit them. *)
Definition candidates : list wrpll_rnp :=
  flat_map (fun r2 =>
    flat_map (fun n2 => map (fun p => mk_rnp p n2 r2) p_range) (n2_range r2))
    r2_range.

(** ** The update policy as the specification words it *)

(** The four rows of the decision table over the pair
    (candidate over budget, best over budget); [closer] and [higher] are
    the outcomes of the two tie-break comparisons.  [true] replaces the
    best record by the candidate. *)
Definition decision_table (cand_over best_over closer higher : bool) : bool :=
  match cand_over, best_over with
  | true, true => closer
  | false, true => true
  | true, false => false
  | false, false => higher
  end.

(** The update rule over the mathematical integers: every product is
    the exact one, [|x|] is [Z.abs]. *)
Definition update_spec (freq2k budget : Z) (cand best : wrpll_rnp)
  : wrpll_rnp :=
  if rnp_p best =? 0 then cand
  else
    let a := freq2k * budget * rnp_p cand * rnp_r2 cand in
    let b := freq2k * budget * rnp_p best * rnp_r2 best in
    let diff :=
      Z.abs (freq2k * rnp_p cand * rnp_r2 cand - LC_FREQ_2K * rnp_n2 cand) in
    let diff_best :=
      Z.abs (freq2k * rnp_p best * rnp_r2 best - LC_FREQ_2K * rnp_n2 best) in
    let c := 1000000 * diff in
    let d := 1000000 * diff_best in
    if decision_table (a <? c) (b <? d)
         (rnp_p best * rnp_r2 best * diff <? rnp_p cand * rnp_r2 cand * diff_best)
         (rnp_n2 cand * rnp_r2 best ^ 2 >? rnp_n2 best * rnp_r2 cand ^ 2)
    then cand else best.

(** The intermediate values of one call of the update rule, as the code
    computes them and as exact integers. *)
Record update_terms : Type := mk_terms {
  t_a : Z; t_b : Z; t_c : Z; t_d : Z; t_diff : Z; t_diff_best : Z;
  t_cross_best : Z;   (* best->p * best->r2 * diff *)
  t_cross_cand : Z;   (* p * r2 * diff_best *)
  t_vco_cand : Z;     (* n2 * best->r2 * best->r2 *)
  t_vco_best : Z      (* best->n2 * r2 * r2 *)
}.

Definition machine_terms (freq2k budget : Z) (cand best : wrpll_rnp)
  : update_terms :=
  let diff := clock_diff freq2k (rnp_r2 cand) (rnp_n2 cand) (rnp_p cand) in
  let diff_best :=
    clock_diff freq2k (rnp_r2 best) (rnp_n2 best) (rnp_p best) in
  {| t_a := budget_term freq2k budget (rnp_p cand) (rnp_r2 cand);
     t_b := budget_term freq2k budget (rnp_p best) (rnp_r2 best);
     t_c := scaled_diff diff;
     t_d := scaled_diff diff_best;
     t_diff := diff;
     t_diff_best := diff_best;
     t_cross_best := cross_term (rnp_p best) (rnp_r2 best) diff;
     t_cross_cand := cross_term (rnp_p cand) (rnp_r2 cand) diff_best;
     t_vco_cand := vco_term (rnp_n2 cand) (rnp_r2 best);
     t_vco_best := vco_term (rnp_n2 best) (rnp_r2 cand) |}.

Definition exact_terms (freq2k budget : Z) (cand best : wrpll_rnp)
  : update_terms :=
  let diff :=
    Z.abs (freq2k * rnp_p cand * rnp_r2 cand - LC_FREQ_2K * rnp_n2 cand) in
  let diff_best :=
    Z.abs (freq2k * rnp_p best * rnp_r2 best - LC_FREQ_2K * rnp_n2 best) in
  {| t_a := freq2k * budget * rnp_p cand * rnp_r2 cand;
     t_b := freq2k * budget * rnp_p best * rnp_r2 best;
     t_c := 1000000 * diff;
     t_d := 1000000 * diff_best;
     t_diff := diff;
     t_diff_best := diff_best;
     t_cross_best := rnp_p best * rnp_r2 best * diff;
     t_cross_cand := rnp_p cand * rnp_r2 cand * diff_best;
     t_vco_cand := rnp_n2 cand * rnp_r2 best * rnp_r2 best;
     t_vco_best := rnp_n2 best * rnp_r2 cand * rnp_r2 cand |}.

(** Whether the update rule replaces a non-empty [best] by [cand]: the
    outcome of its comparisons on the values the code computes. *)
Definition replaces (freq2k budget : Z) (cand best : wrpll_rnp) : bool :=
  let t := machine_terms freq2k budget cand best in
  decision_table (t_a t <? t_c t) (t_b t <? t_d t)
    (t_cross_best t <? t_cross_cand t) (t_vco_cand t >? t_vco_best t).

(** Two candidates tie when they are on the same side of the budget and
    the comparison of that side finds them equal. *)
Definition tied (freq2k budget : Z) (cand best : wrpll_rnp) : Prop :=
  let t := machine_terms freq2k budget cand best in
  (t_a t >= t_c t /\ t_b t >= t_d t /\ t_vco_cand t = t_vco_best t)
  \/ (t_a t < t_c t /\ t_b t < t_d t /\ t_cross_best t = t_cross_cand t).

(** ** The order behind the update rule *)

(** The exact error term [|freq2k * p * r2 - LC_FREQ_2K * n2|] of a
    triplet and whether it exceeds the budget. *)
Definition err (freq2k : Z) (t : wrpll_rnp) : Z :=
  Z.abs (freq2k * rnp_p t * rnp_r2 t - LC_FREQ_2K * rnp_n2 t).

Definition over_budget (freq2k budget : Z) (t : wrpll_rnp) : bool :=
  freq2k * budget * rnp_p t * rnp_r2 t <? 1000000 * err freq2k t.

(** [better x y]: the rule, on exact integers, replaces a best [y] by
    the candidate [x]. *)
Definition better (freq2k budget : Z) (x y : wrpll_rnp) : bool :=
  decision_table (over_budget freq2k budget x) (over_budget freq2k budget y)
    (rnp_p y * rnp_r2 y * err freq2k x <? rnp_p x * rnp_r2 x * err freq2k y)
    (rnp_n2 x * rnp_r2 y * rnp_r2 y >? rnp_n2 y * rnp_r2 x * rnp_r2 x).

(** [m] occurs in [l], replaces every element before it and is replaced
    by no element after it. *)
Definition first_max {A : Type} (beats : A -> A -> bool) (l : list A) (m : A)
  : Prop :=
  exists l1 l2,
    l = l1 ++ m :: l2
    /\ Forall (fun x => beats m x = true) l1
    /\ Forall (fun x => beats x m = false) l2.

(** ** Ranges of the search *)

(** Largest [freq2k] of a non-negative [int] clock. *)
Definition FREQ2K_MAX : Z := INT_MAX / 100.

(** Upper ends of the three loops. *)
Definition R2_MAX : Z := LC_FREQ * 2 / REF_MIN.
Definition N2_MAX : Z := VCO_MAX * R2_MAX / LC_FREQ.

(** A record whose fields lie within the ends of the loops; the zeroed
    record is one. *)
Definition bounded (t : wrpll_rnp) : Prop :=
  0 <= rnp_p t <= P_MAX /\ 0 <= rnp_n2 t <= N2_MAX /\ 0 <= rnp_r2 t <= R2_MAX.

(** The range conditions of a returned triplet. *)
Definition in_range (t : wrpll_rnp) : Prop :=
  LC_FREQ * 2 / REF_MAX + 1 <= rnp_r2 t <= LC_FREQ * 2 / REF_MIN
  /\ VCO_MIN * rnp_r2 t / LC_FREQ + 1 <= rnp_n2 t
     <= VCO_MAX * rnp_r2 t / LC_FREQ
  /\ (exists k, 1 <= k <= 32 /\ rnp_p t = 2 * k).

(** ** Reference table *)

(** [struct wrpll_tmds_clock { uint32_t clock; uint16_t p, n2, r2; }]. *)
Record wrpll_tmds_clock : Type := tmds {
  tmds_clock : Z;
  tmds_p : Z;     (* Post divider *)
  tmds_n2 : Z;    (* Feedback divider *)
  tmds_r2 : Z     (* Reference divider *)
}.

Definition expected (ref : wrpll_tmds_clock) : wrpll_rnp :=
  mk_rnp (tmds_p ref) (tmds_n2 ref) (tmds_r2 ref).

Definition wrpll_tmds_clock_table : list wrpll_tmds_clock :=
  [
   tmds 19750000 38 25 18; tmds 20000000 48 32 18; tmds 21000000 36 21 15;
   tmds 21912000 42 29 17; tmds 22000000 36 22 15; tmds 23000000 36 23 15;
   tmds 23500000 40 40 23; tmds 23750000 26 16 14; tmds 24000000 36 24 15;
   tmds 25000000 36 25 15; tmds 25175000 26 40 33; tmds 25200000 30 21 15;
   tmds 26000000 36 26 15; tmds 27000000 30 21 14; tmds 27027000 18 100 111;
   tmds 27500000 30 29 19; tmds 28000000 34 30 17; tmds 28320000 26 30 22;
   tmds 28322000 32 42 25; tmds 28750000 24 23 18; tmds 29000000 30 29 18;
   tmds 29750000 32 30 17; tmds 30000000 30 25 15; tmds 30750000 30 41 24;
   tmds 31000000 30 31 18; tmds 31500000 30 28 16; tmds 32000000 30 32 18;
   tmds 32500000 28 32 19; tmds 33000000 24 22 15; tmds 34000000 28 30 17;
   tmds 35000000 26 32 19; tmds 35500000 24 30 19; tmds 36000000 26 26 15;
   tmds 36750000 26 46 26; tmds 37000000 24 23 14; tmds 37762500 22 40 26;
   tmds 37800000 20 21 15; tmds 38000000 24 27 16; tmds 38250000 24 34 20;
   tmds 39000000 24 26 15; tmds 40000000 24 32 18; tmds 40500000 20 21 14;
   tmds 40541000 22 147 89; tmds 40750000 18 19 14; tmds 41000000 16 17 14;
   tmds 41500000 22 44 26; tmds 41540000 22 44 26; tmds 42000000 18 21 15;
   tmds 42500000 22 45 26; tmds 43000000 20 43 27; tmds 43163000 20 24 15;
   tmds 44000000 18 22 15; tmds 44900000 20 108 65; tmds 45000000 20 25 15;
   tmds 45250000 20 52 31; tmds 46000000 18 23 15; tmds 46750000 20 45 26;
   tmds 47000000 20 40 23; tmds 48000000 18 24 15; tmds 49000000 18 49 30;
   tmds 49500000 16 22 15; tmds 50000000 18 25 15; tmds 50500000 18 32 19;
   tmds 51000000 18 34 20; tmds 52000000 18 26 15; tmds 52406000 14 34 25;
   tmds 53000000 16 22 14; tmds 54000000 16 24 15; tmds 54054000 16 173 108;
   tmds 54500000 14 24 17; tmds 55000000 12 22 18; tmds 56000000 14 45 31;
   tmds 56250000 16 25 15; tmds 56750000 14 25 17; tmds 57000000 16 27 16;
   tmds 58000000 16 43 25; tmds 58250000 16 38 22; tmds 58750000 16 40 23;
   tmds 59000000 14 26 17; tmds 59341000 14 40 26; tmds 59400000 16 44 25;
   tmds 60000000 16 32 18; tmds 60500000 12 39 29; tmds 61000000 14 49 31;
   tmds 62000000 14 37 23; tmds 62250000 14 42 26; tmds 63000000 12 21 15;
   tmds 63500000 14 28 17; tmds 64000000 12 27 19; tmds 65000000 14 32 19;
   tmds 65250000 12 29 20; tmds 65500000 12 32 22; tmds 66000000 12 22 15;
   tmds 66667000 14 38 22; tmds 66750000 10 21 17; tmds 67000000 14 33 19;
   tmds 67750000 14 58 33; tmds 68000000 14 30 17; tmds 68179000 14 46 26;
   tmds 68250000 14 46 26; tmds 69000000 12 23 15; tmds 70000000 12 28 18;
   tmds 71000000 12 30 19; tmds 72000000 12 24 15; tmds 73000000 10 23 17;
   tmds 74000000 12 23 14; tmds 74176000 8 100 91; tmds 74250000 10 22 16;
   tmds 74481000 12 43 26; tmds 74500000 10 29 21; tmds 75000000 12 25 15;
   tmds 75250000 10 39 28; tmds 76000000 12 27 16; tmds 77000000 12 53 31;
   tmds 78000000 12 26 15; tmds 78750000 12 28 16; tmds 79000000 10 38 26;
   tmds 79500000 10 28 19; tmds 80000000 12 32 18; tmds 81000000 10 21 14;
   tmds 81081000 6 100 111; tmds 81624000 8 29 24; tmds 82000000 8 17 14;
   tmds 83000000 10 40 26; tmds 83950000 10 28 18; tmds 84000000 10 28 18;
   tmds 84750000 6 16 17; tmds 85000000 6 17 18; tmds 85250000 10 30 19;
   tmds 85750000 10 27 17; tmds 86000000 10 43 27; tmds 87000000 10 29 18;
   tmds 88000000 10 44 27; tmds 88500000 10 41 25; tmds 89000000 10 28 17;
   tmds 89012000 6 90 91; tmds 89100000 10 33 20; tmds 90000000 10 25 15;
   tmds 91000000 10 32 19; tmds 92000000 10 46 27; tmds 93000000 10 31 18;
   tmds 94000000 10 40 23; tmds 94500000 10 28 16; tmds 95000000 10 44 25;
   tmds 95654000 10 39 22; tmds 95750000 10 39 22; tmds 96000000 10 32 18;
   tmds 97000000 8 23 16; tmds 97750000 8 42 29; tmds 98000000 8 45 31;
   tmds 99000000 8 22 15; tmds 99750000 8 34 23; tmds 100000000 6 20 18;
   tmds 100500000 6 19 17; tmds 101000000 6 37 33; tmds 101250000 8 21 14;
   tmds 102000000 6 17 15; tmds 102250000 6 25 22; tmds 103000000 8 29 19;
   tmds 104000000 8 37 24; tmds 105000000 8 28 18; tmds 106000000 8 22 14;
   tmds 107000000 8 46 29; tmds 107214000 8 27 17; tmds 108000000 8 24 15;
   tmds 108108000 8 173 108; tmds 109000000 6 23 19; tmds 110000000 6 22 18;
   tmds 110013000 6 22 18; tmds 110250000 8 49 30; tmds 110500000 8 36 22;
   tmds 111000000 8 23 14; tmds 111264000 8 150 91; tmds 111375000 8 33 20;
   tmds 112000000 8 63 38; tmds 112500000 8 25 15; tmds 113100000 8 57 34;
   tmds 113309000 8 42 25; tmds 114000000 8 27 16; tmds 115000000 6 23 18;
   tmds 116000000 8 43 25; tmds 117000000 8 26 15; tmds 117500000 8 40 23;
   tmds 118000000 6 38 29; tmds 119000000 8 30 17; tmds 119500000 8 46 26;
   tmds 119651000 8 39 22; tmds 120000000 8 32 18; tmds 121000000 6 39 29;
   tmds 121250000 6 31 23; tmds 121750000 6 23 17; tmds 122000000 6 42 31;
   tmds 122614000 6 30 22; tmds 123000000 6 41 30; tmds 123379000 6 37 27;
   tmds 124000000 6 51 37; tmds 125000000 6 25 18; tmds 125250000 4 13 14;
   tmds 125750000 4 27 29; tmds 126000000 6 21 15; tmds 127000000 6 24 17;
   tmds 127250000 6 41 29; tmds 128000000 6 27 19; tmds 129000000 6 43 30;
   tmds 129859000 4 25 26; tmds 130000000 6 26 18; tmds 130250000 6 42 29;
   tmds 131000000 6 32 22; tmds 131500000 6 38 26; tmds 131850000 6 41 28;
   tmds 132000000 6 22 15; tmds 132750000 6 28 19; tmds 133000000 6 34 23;
   tmds 133330000 6 37 25; tmds 134000000 6 61 41; tmds 135000000 6 21 14;
   tmds 135250000 6 167 111; tmds 136000000 6 62 41; tmds 137000000 6 35 23;
   tmds 138000000 6 23 15; tmds 138500000 6 40 26; tmds 138750000 6 37 24;
   tmds 139000000 6 34 22; tmds 139050000 6 34 22; tmds 139054000 6 34 22;
   tmds 140000000 6 28 18; tmds 141000000 6 36 23; tmds 141500000 6 22 14;
   tmds 142000000 6 30 19; tmds 143000000 6 27 17; tmds 143472000 4 17 16;
   tmds 144000000 6 24 15; tmds 145000000 6 29 18; tmds 146000000 6 47 29;
   tmds 146250000 6 26 16; tmds 147000000 6 49 30; tmds 147891000 6 23 14;
   tmds 148000000 6 23 14; tmds 148250000 6 28 17; tmds 148352000 4 100 91;
   tmds 148500000 6 33 20; tmds 149000000 6 48 29; tmds 150000000 6 25 15;
   tmds 151000000 4 19 17; tmds 152000000 6 27 16; tmds 152280000 6 44 26;
   tmds 153000000 6 34 20; tmds 154000000 6 53 31; tmds 155000000 6 31 18;
   tmds 155250000 6 50 29; tmds 155750000 6 45 26; tmds 156000000 6 26 15;
   tmds 157000000 6 61 35; tmds 157500000 6 28 16; tmds 158000000 6 65 37;
   tmds 158250000 6 44 25; tmds 159000000 6 53 30; tmds 159500000 6 39 22;
   tmds 160000000 6 32 18; tmds 161000000 4 31 26; tmds 162000000 4 18 15;
   tmds 162162000 4 131 109; tmds 162500000 4 53 44; tmds 163000000 4 29 24;
   tmds 164000000 4 17 14; tmds 165000000 4 22 18; tmds 166000000 4 32 26;
   tmds 167000000 4 26 21; tmds 168000000 4 46 37; tmds 169000000 4 104 83;
   tmds 169128000 4 64 51; tmds 169500000 4 39 31; tmds 170000000 4 34 27;
   tmds 171000000 4 19 15; tmds 172000000 4 51 40; tmds 172750000 4 32 25;
   tmds 172800000 4 32 25; tmds 173000000 4 41 32; tmds 174000000 4 49 38;
   tmds 174787000 4 22 17; tmds 175000000 4 35 27; tmds 176000000 4 30 23;
   tmds 177000000 4 38 29; tmds 178000000 4 29 22; tmds 178500000 4 37 28;
   tmds 179000000 4 53 40; tmds 179500000 4 73 55; tmds 180000000 4 20 15;
   tmds 181000000 4 55 41; tmds 182000000 4 31 23; tmds 183000000 4 42 31;
   tmds 184000000 4 30 22; tmds 184750000 4 26 19; tmds 185000000 4 37 27;
   tmds 186000000 4 51 37; tmds 187000000 4 36 26; tmds 188000000 4 32 23;
   tmds 189000000 4 21 15; tmds 190000000 4 38 27; tmds 190960000 4 41 29;
   tmds 191000000 4 41 29; tmds 192000000 4 27 19; tmds 192250000 4 37 26;
   tmds 193000000 4 20 14; tmds 193250000 4 53 37; tmds 194000000 4 23 16;
   tmds 194208000 4 23 16; tmds 195000000 4 26 18; tmds 196000000 4 45 31;
   tmds 197000000 4 35 24; tmds 197750000 4 41 28; tmds 198000000 4 22 15;
   tmds 198500000 4 25 17; tmds 199000000 4 28 19; tmds 200000000 4 37 25;
   tmds 201000000 4 61 41; tmds 202000000 4 112 75; tmds 202500000 4 21 14;
   tmds 203000000 4 146 97; tmds 204000000 4 62 41; tmds 204750000 4 44 29;
   tmds 205000000 4 38 25; tmds 206000000 4 29 19; tmds 207000000 4 23 15;
   tmds 207500000 4 40 26; tmds 208000000 4 37 24; tmds 208900000 4 48 31;
   tmds 209000000 4 48 31; tmds 209250000 4 31 20; tmds 210000000 4 28 18;
   tmds 211000000 4 25 16; tmds 212000000 4 22 14; tmds 213000000 4 30 19;
   tmds 213750000 4 38 24; tmds 214000000 4 46 29; tmds 214750000 4 35 22;
   tmds 215000000 4 43 27; tmds 216000000 4 24 15; tmds 217000000 4 37 23;
   tmds 218000000 4 42 26; tmds 218250000 4 42 26; tmds 218750000 4 34 21;
   tmds 219000000 4 47 29; tmds 220000000 4 44 27; tmds 220640000 4 49 30;
   tmds 220750000 4 36 22; tmds 221000000 4 36 22; tmds 222000000 4 23 14;
   tmds 222525000 4 150 91; tmds 222750000 4 33 20; tmds 227000000 4 37 22;
   tmds 230250000 4 29 17; tmds 233500000 4 38 22; tmds 235000000 4 40 23;
   tmds 238000000 4 30 17; tmds 241500000 2 17 19; tmds 245250000 2 20 22;
   tmds 247750000 2 22 24; tmds 253250000 2 15 16; tmds 256250000 2 18 19;
   tmds 262500000 2 31 32; tmds 267250000 2 66 67; tmds 268500000 2 94 95;
   tmds 270000000 2 14 14; tmds 272500000 2 77 76; tmds 273750000 2 57 56;
   tmds 280750000 2 24 23; tmds 281250000 2 23 22; tmds 286000000 2 17 16;
   tmds 291750000 2 26 24; tmds 296703000 2 100 91; tmds 297000000 2 22 20;
   tmds 298000000 2 21 19
  ].

(** ** The checking loop of [main] *)

(** The arguments of one diagnostic, in the order of the format
    string: the number printed before [Hz], the reference triplet and the
    computed triplet, each as [(r2, n2, p)]. *)
Record report : Type := mk_report {
  rep_hz : Z;
  rep_reference : Z * Z * Z;
  rep_computed : Z * Z * Z
}.

(** What the test library has recorded so far. *)
Record harness : Type := mk_harness {
  reports : list report;
  failed : bool
}.

Definition harness_init : harness := mk_harness [] false.

(** Modelled from the spec: [igt_fail_on_f] of the test library, whose
    definition is not among the sources.  When the condition holds the
    case is reported with its diagnostic and recorded as failed; the
    test cases that remain are still checked. *)
Definition igt_fail_on_f (cond : bool) (r : report) (h : harness) : harness :=
  if cond then mk_harness (reports h ++ [r]) true else h.

(** Modelled from the spec: the exit status of the process is nonzero
    when a case has been recorded as failed, and otherwise the value
    [main] returns. *)
Definition exit_status (h : harness) (ret : Z) : Z :=
  if failed h then 1 else ret.

(** The [uint32_t] clock of an entry as the [int] argument of
    [wrpll_compute_rnp]: a value above [INT_MAX] becomes the negative
    [int] of the same 32 bits. *)
Definition int_of_u32 (x : Z) : Z :=
  if x <=? INT_MAX then x else x - 2 ^ 32.

(** The arguments [main] passes after the format string.  The first is
    [(int64_t)ref->clock * 1000]; a [uint32_t] times 1000 fits [int64_t]. *)
Definition diagnostic (ref : wrpll_tmds_clock) : report :=
  let res := wrpll_compute_rnp (int_of_u32 (tmds_clock ref)) in
  mk_report (tmds_clock ref * 1000)
    (tmds_r2 ref, tmds_n2 ref, tmds_p ref)
    (rnp_r2 res, rnp_n2 res, rnp_p res).

(** The body of the loop of [main]. *)
Definition check_entry (h : harness) (ref : wrpll_tmds_clock) : harness :=
  let res := wrpll_compute_rnp (int_of_u32 (tmds_clock ref)) in
  igt_fail_on_f
    (negb (tmds_r2 ref =? rnp_r2 res)
     || negb (tmds_n2 ref =? rnp_n2 res)
     || negb (tmds_p ref =? rnp_p res))
    (diagnostic ref)
    h.

(** [main] over a table: the state of the harness after the loop and the
    value of [return 0]. *)
Definition main_on (table : list wrpll_tmds_clock) : harness * Z :=
  (fold_left check_entry table harness_init, 0).

Definition main : harness * Z := main_on wrpll_tmds_clock_table.

Definition mismatch (ref : wrpll_tmds_clock) : bool :=
  negb (rnp_eqb (wrpll_compute_rnp (int_of_u32 (tmds_clock ref)))
          (expected ref)).

(** ** The search on 63-bit machine integers

    The same update rule and loops on primitive integers, for evaluating
    the search on the whole table.  A pair [(r2, n2)] whose candidates
    cannot replace the current best is skipped without running its
    [p] loop. *)

Module Fast.

Local Open Scope uint63_scope.

(** [(p, n2, r2)] *)
Definition rnp63 : Type := int * int * int.

Definition to_rnp (t : rnp63) : wrpll_rnp :=
  let '(p, n2, r2) := t in mk_rnp (to_Z p) (to_Z n2) (to_Z r2).

Definition abs_diff63 (x y : int) : int :=
  if y <? x then x - y else y - x.

Definition budget_term63 (f bud p r2 : int) : int := f * bud * p * r2.
Definition clock_diff63 (f r2 n2 p : int) : int :=
  abs_diff63 (f * p * r2) (5400000 * n2).
Definition scaled_diff63 (diff : int) : int := 1000000 * diff.
Definition cross_term63 (p r2 diff : int) : int := p * r2 * diff.
Definition vco_term63 (n2 r2 : int) : int := n2 * r2 * r2.

Definition update63 (f bud r2 n2 p : int) (best : rnp63) : rnp63 :=
  let '(bp, bn2, br2) := best in
  if bp =? 0 then (p, n2, r2)
  else
    let a := budget_term63 f bud p r2 in
    let b := budget_term63 f bud bp br2 in
    let diff := clock_diff63 f r2 n2 p in
    let diff_best := clock_diff63 f br2 bn2 bp in
    let c := scaled_diff63 diff in
    let d := scaled_diff63 diff_best in
    if (a <? c) && (b <? d) then
      if cross_term63 bp br2 diff <? cross_term63 p r2 diff_best
      then (p, n2, r2) else best
    else if (c <=? a) && (b <? d) then (p, n2, r2)
    else if (c <=? a) && (d <=? b) then
      if vco_term63 bn2 r2 <? vco_term63 n2 br2
      then (p, n2, r2) else best
    else best.

(** The best record is set, within its budget, and no candidate of
    the pair [(r2, n2)] has a higher [n2 * r2 * r2] term. *)
Definition settled63 (f bud r2 n2 : int) (best : rnp63) : bool :=
  let '(bp, bn2, br2) := best in
  negb (bp =? 0)
  && (scaled_diff63 (clock_diff63 f br2 bn2 bp) <=? budget_term63 f bud bp br2)
  && negb (vco_term63 bn2 r2 <? vco_term63 n2 br2).

Definition p_loop63 (ps : list int) (f bud r2 n2 : int) (best : rnp63)
  : rnp63 :=
  if settled63 f bud r2 n2 best then best
  else fold_left (fun b p => update63 f bud r2 n2 p b) ps best.

Definition search63 (freq2k budget : Z) : rnp63 :=
  let f := of_Z freq2k in
  let bud := of_Z budget in
  let ps := map of_Z p_range in
  fold_left (fun b r2 =>
    fold_left (fun b n2 => p_loop63 ps f bud (of_Z r2) (of_Z n2) b)
      (n2_range r2) b)
    r2_range (0, 0, 0).

End Fast.

(** The search on 63-bit integers reproduces a table entry whose clock
    is a non-negative [int] off the bypass. *)
Definition entry_ok (ref : wrpll_tmds_clock) : bool :=
  (0 <=? tmds_clock ref) && (tmds_clock ref <=? INT_MAX)
  && negb (freq2k_of (tmds_clock ref) =? 5400000)
  && rnp_eqb
       (Fast.to_rnp (Fast.search63 (freq2k_of (tmds_clock ref))
                       (wrpll_get_budget_for_freq (tmds_clock ref))))
       (expected ref).

(** ** Order of the table *)

(** Each element is smaller than the next one. *)
Fixpoint ascending (l : list Z) : bool :=
  match l with
  | x :: ((y :: _) as rest) => (x <? y) && ascending rest
  | _ => true
  end.

(** ** Proof automation *)

(** Walks the decision tree of a [match] on binary numerals, one
    constructor at a time; the leaves are closed by evaluation. *)
Ltac walk_numeral q :=
  destruct q as [q | q |];
  try (vm_compute; reflexivity);
  try walk_numeral q.

(** * Budget selector: the [switch] and its tiers *)


Lemma budget_switch_tiers (clock : Z) :
  wrpll_get_budget_for_freq clock = tier_lookup clock budget_tiers.
Proof.
  destruct clock as [| q | q]; try reflexivity.
  walk_numeral q.
Qed.

Lemma mem_spec (x : Z) (l : list Z) : mem x l = true <-> In x l.
Proof.
  unfold mem. rewrite existsb_exists. split.
  - intros [y [Hy Heq]]. apply Z.eqb_eq in Heq. now subst.
  - intros H. exists x. split; [assumption | apply Z.eqb_refl].
Qed.

Lemma tier_lookup_values (clock : Z) (tiers : list (Z * list Z)) :
  In (tier_lookup clock tiers) (1000 :: map fst tiers).
Proof.
  induction tiers as [| [b cs] rest IH]; simpl.
  - now left.
  - destruct (mem clock cs).
    + right. now left.
    + destruct IH as [IH | IH]; [now left | right; now right].
Qed.

Lemma tier_lookup_default (clock : Z) (tiers : list (Z * list Z)) :
  ~ In clock (flat_map snd tiers) -> tier_lookup clock tiers = 1000.
Proof.
  induction tiers as [| [b cs] rest IH]; simpl; intros H.
  - reflexivity.
  - destruct (mem clock cs) eqn:E.
    + exfalso. apply H, in_or_app. left. now apply mem_spec.
    + apply IH. intros Hin. apply H, in_or_app. now right.
Qed.

Lemma budget_in_values (clock : Z) :
  In (wrpll_get_budget_for_freq clock) budget_values.
Proof.
  rewrite budget_switch_tiers.
  pose proof (tier_lookup_values clock budget_tiers) as H.
  simpl in H. unfold budget_values. simpl. tauto.
Qed.

Lemma budget_bounds (clock : Z) :
  0 <= wrpll_get_budget_for_freq clock <= 5000.
Proof.
  pose proof (budget_in_values clock) as H.
  unfold budget_values in H. simpl in H. lia.
Qed.

(** C6: the budget selector is a total function on the integers whose
    value is always one of 0, 1000, 1500, 2000, 4000 and 5000, each of
    which it takes; on a [case] label of one of the five non-default
    tiers it is the budget of that tier, and on every other clock it is
    1000. *)
Theorem budget_selector_six_values :
  (forall clock, In (wrpll_get_budget_for_freq clock) budget_values)
  /\ (forall v, In v budget_values ->
        exists clock, wrpll_get_budget_for_freq clock = v)
  /\ Forall (fun tier =>
        Forall (fun clock => wrpll_get_budget_for_freq clock = fst tier)
          (snd tier)) budget_tiers
  /\ (forall clock, ~ In clock listed_clocks ->
        wrpll_get_budget_for_freq clock = 1000).
Proof.
  split; [exact budget_in_values | split; [| split]].
  2: { repeat (constructor; try reflexivity). }
  - intros v Hv. unfold budget_values in Hv. simpl in Hv.
    destruct Hv as [<- | [<- | [<- | [<- | [<- | [<- | []]]]]]].
    + now exists 27000000.
    + now exists 19750000.
    + now exists 298000000.
    + now exists 202000000.
    + now exists 270000000.
    + now exists 268500000.
  - intros clock H. rewrite budget_switch_tiers.
    now apply tier_lookup_default.
Qed.

Lemma budget_selector_six_values_witness :
  wrpll_get_budget_for_freq 19750000 = 1000.
Proof.
  apply (proj2 (proj2 (proj2 budget_selector_six_values)) 19750000).
  intros H. apply mem_spec in H. vm_compute in H. discriminate H.
Defined.

(** * The bypass *)

Lemma u64_small (x : Z) : 0 <= x < 2 ^ 64 -> u64 x = x.
Proof. intros H. unfold u64. now apply Z.mod_small. Qed.

Lemma u32_small (x : Z) : 0 <= x < 2 ^ 32 -> u32 x = x.
Proof. intros H. unfold u32. now apply Z.mod_small. Qed.

Lemma freq2k_of_nonneg (clock : Z) :
  0 <= clock <= INT_MAX -> freq2k_of clock = clock / 100.
Proof.
  intros H. unfold freq2k_of, INT_MAX in *.
  rewrite Z.quot_div_nonneg by lia.
  apply u64_small.
  pose proof (Z.div_pos clock 100).
  assert (clock / 100 <= clock) by (apply Z.div_le_upper_bound; lia).
  lia.
Qed.

Lemma freq2k_of_bounds (clock : Z) :
  0 <= clock <= INT_MAX -> 0 <= freq2k_of clock <= FREQ2K_MAX.
Proof.
  intros H. rewrite freq2k_of_nonneg by assumption.
  unfold FREQ2K_MAX, INT_MAX in *. split.
  - apply Z.div_pos; lia.
  - apply Z.div_le_mono; lia.
Qed.

(** C4: at 540000000 Hz the search returns (r2 = 2, n2 = 2, p = 1)
    without enumerating, whatever the budget selector answers. *)
Theorem bypass_540MHz :
  (forall budget_for,
     wrpll_compute_rnp_with budget_for 540000000 = mk_rnp 1 2 2)
  /\ (rnp_r2 (wrpll_compute_rnp 540000000) = 2
      /\ rnp_n2 (wrpll_compute_rnp 540000000) = 2
      /\ rnp_p (wrpll_compute_rnp 540000000) = 1).
Proof.
  split.
  - intros budget_for. reflexivity.
  - repeat split; reflexivity.
Qed.

(** C9: [clock / 100] truncates, so each of the hundred clocks from
    540000000 to 540000099 Hz takes the bypass and yields
    (r2 = 2, n2 = 2, p = 1). *)
Theorem bypass_truncated_clocks (clock : Z) :
  540000000 <= clock <= 540000099 ->
  freq2k_of clock = 5400000 /\ wrpll_compute_rnp clock = mk_rnp 1 2 2.
Proof.
  intros H.
  assert (Hf : freq2k_of clock = 5400000).
  { rewrite freq2k_of_nonneg by (unfold INT_MAX; lia).
    symmetry. apply Z.div_unique with (r := clock - 540000000); lia. }
  split; [assumption |].
  unfold wrpll_compute_rnp, wrpll_compute_rnp_with.
  rewrite Hf. reflexivity.
Qed.

Lemma bypass_truncated_clocks_witness :
  freq2k_of 540000099 = 5400000
  /\ wrpll_compute_rnp 540000099 = mk_rnp 1 2 2.
Proof.
  apply (bypass_truncated_clocks 540000099). lia.
Defined.

(** * The update rule *)

Lemma geb_ltb (x y : Z) : (x >=? y) = negb (x <? y).
Proof. rewrite Z.geb_leb, Z.leb_antisym. reflexivity. Qed.

(** The chain of [if]/[else if] of the source is the decision table. *)
Lemma wrpll_update_rnp_replaces (freq2k budget r2 n2 p : Z) (best : wrpll_rnp) :
  wrpll_update_rnp freq2k budget r2 n2 p best =
    if rnp_p best =? 0 then mk_rnp p n2 r2
    else if replaces freq2k budget (mk_rnp p n2 r2) best
         then mk_rnp p n2 r2 else best.
Proof.
  unfold wrpll_update_rnp, replaces, machine_terms, decision_table. simpl.
  rewrite !geb_ltb.
  destruct (rnp_p best =? 0); [reflexivity |].
  destruct (budget_term freq2k budget p r2 <? _);
    destruct (budget_term freq2k budget (rnp_p best) (rnp_r2 best) <? _);
    reflexivity.
Qed.

Lemma update_with_choice (freq2k budget : Z) (best t : wrpll_rnp) :
  update_with freq2k budget best t = t \/ update_with freq2k budget best t = best.
Proof.
  unfold update_with. rewrite wrpll_update_rnp_replaces.
  destruct t as [p n2 r2]. simpl.
  destruct (rnp_p best =? 0); [now left |].
  destruct (replaces _ _ _ _); [now left | now right].
Qed.

Lemma update_with_zero (freq2k budget : Z) (t : wrpll_rnp) :
  update_with freq2k budget rnp_zero t = t.
Proof. destruct t. reflexivity. Qed.

(** ** Exactness of the machine arithmetic on the search domain *)

Lemma prod_bounds (x y X Y : Z) :
  0 <= x <= X -> 0 <= y <= Y -> 0 <= x * y <= X * Y.
Proof. intros Hx Hy. split; [nia | apply Z.mul_le_mono_nonneg; lia]. Qed.

Lemma mul64_exact (x y : Z) : 0 <= x * y < 2 ^ 64 -> mul64 x y = x * y.
Proof. intros H. unfold mul64. now apply u64_small. Qed.

Lemma mul32_exact (x y : Z) : 0 <= x * y < 2 ^ 32 -> mul32 x y = x * y.
Proof. intros H. unfold mul32. now apply u32_small. Qed.

Lemma ABS_DIFF_exact (a b : Z) :
  0 <= a < 2 ^ 64 -> 0 <= b < 2 ^ 64 -> ABS_DIFF a b = Z.abs (a - b).
Proof.
  intros Ha Hb. unfold ABS_DIFF, sub64.
  rewrite Z.gtb_ltb. destruct (Z.ltb_spec b a); rewrite u64_small; lia.
Qed.

Lemma fits_u64 (x M : Z) : 0 <= x <= M -> (M <? 2 ^ 64) = true -> in_u64 x.
Proof. intros H HM. apply Z.ltb_lt in HM. unfold in_u64. lia. Qed.

Lemma fits_u32 (x M : Z) : 0 <= x <= M -> (M <? 2 ^ 32) = true -> in_u32 x.
Proof. intros H HM. apply Z.ltb_lt in HM. unfold in_u32. lia. Qed.

Section Exactness.

Variables freq2k budget : Z.
Hypothesis Hfreq : 0 <= freq2k <= FREQ2K_MAX.
Hypothesis Hbudget : 0 <= budget <= 5000.

Lemma budget_term_exact (p r2 : Z) :
  0 <= p <= P_MAX -> 0 <= r2 <= R2_MAX ->
  budget_term freq2k budget p r2 = freq2k * budget * p * r2
  /\ 0 <= freq2k * budget * p * r2 <= 769658122240000.
Proof.
  intros Hp Hr. change FREQ2K_MAX with 21474836 in Hfreq.
  change P_MAX with 64 in Hp. change R2_MAX with 112 in Hr.
  pose proof (prod_bounds _ _ _ _ Hfreq Hbudget) as H1.
  pose proof (prod_bounds _ _ _ _ H1 Hp) as H2.
  pose proof (prod_bounds _ _ _ _ H2 Hr) as H3.
  unfold budget_term.
  rewrite (mul64_exact freq2k) by lia.
  rewrite (mul64_exact (freq2k * budget)) by lia.
  rewrite mul64_exact by lia. lia.
Qed.

Lemma clock_diff_exact (r2 n2 p : Z) :
  0 <= p <= P_MAX -> 0 <= n2 <= N2_MAX -> 0 <= r2 <= R2_MAX ->
  clock_diff freq2k r2 n2 p = Z.abs (freq2k * p * r2 - LC_FREQ_2K * n2)
  /\ 0 <= Z.abs (freq2k * p * r2 - LC_FREQ_2K * n2) <= 153931624448.
Proof.
  intros Hp Hn Hr. change FREQ2K_MAX with 21474836 in Hfreq.
  change P_MAX with 64 in Hp. change R2_MAX with 112 in Hr.
  change N2_MAX with 199 in Hn. change LC_FREQ_2K with 5400000.
  pose proof (prod_bounds _ _ _ _ Hfreq Hp) as H1.
  pose proof (prod_bounds _ _ _ _ H1 Hr) as H2.
  unfold clock_diff. change LC_FREQ_2K with 5400000.
  rewrite (mul64_exact freq2k) by lia.
  rewrite mul64_exact by lia.
  rewrite mul32_exact by lia.
  rewrite ABS_DIFF_exact by lia. lia.
Qed.

Lemma scaled_diff_exact (diff : Z) :
  0 <= diff <= 153931624448 -> scaled_diff diff = 1000000 * diff.
Proof. intros H. unfold scaled_diff. apply mul64_exact. lia. Qed.

Lemma cross_term_exact (p r2 diff : Z) :
  0 <= p <= P_MAX -> 0 <= r2 <= R2_MAX -> 0 <= diff <= 153931624448 ->
  cross_term p r2 diff = p * r2 * diff.
Proof.
  intros Hp Hr Hd.
  change P_MAX with 64 in Hp. change R2_MAX with 112 in Hr.
  pose proof (prod_bounds _ _ _ _ Hp Hr) as H1.
  pose proof (prod_bounds _ _ _ _ H1 Hd) as H2.
  unfold cross_term.
  rewrite mul32_exact by lia. apply mul64_exact. lia.
Qed.

Lemma vco_term_exact (n2 r2 : Z) :
  0 <= n2 <= N2_MAX -> 0 <= r2 <= R2_MAX ->
  vco_term n2 r2 = n2 * r2 * r2.
Proof.
  intros Hn Hr.
  change N2_MAX with 199 in Hn. change R2_MAX with 112 in Hr.
  pose proof (prod_bounds _ _ _ _ Hn Hr) as H1.
  pose proof (prod_bounds _ _ _ _ H1 Hr) as H2.
  unfold vco_term.
  rewrite (mul32_exact n2) by lia. apply mul32_exact. lia.
Qed.

Lemma machine_terms_exact (cand best : wrpll_rnp) :
  bounded cand -> bounded best ->
  machine_terms freq2k budget cand best = exact_terms freq2k budget cand best.
Proof.
  intros (Hcp & Hcn & Hcr) (Hbp & Hbn & Hbr).
  destruct (clock_diff_exact _ _ _ Hcp Hcn Hcr) as [Ed Bd].
  destruct (clock_diff_exact _ _ _ Hbp Hbn Hbr) as [Ed' Bd'].
  unfold machine_terms, exact_terms.
  rewrite Ed, Ed'.
  rewrite (proj1 (budget_term_exact _ _ Hcp Hcr)).
  rewrite (proj1 (budget_term_exact _ _ Hbp Hbr)).
  rewrite !scaled_diff_exact by assumption.
  rewrite !cross_term_exact by assumption.
  rewrite !vco_term_exact by assumption.
  reflexivity.
Qed.

Lemma wrpll_update_rnp_exact (r2 n2 p : Z) (best : wrpll_rnp) :
  bounded (mk_rnp p n2 r2) -> bounded best ->
  wrpll_update_rnp freq2k budget r2 n2 p best
  = update_spec freq2k budget (mk_rnp p n2 r2) best.
Proof.
  intros Hc Hb. rewrite wrpll_update_rnp_replaces.
  unfold replaces. rewrite machine_terms_exact by assumption.
  unfold update_spec, exact_terms.
  cbn [rnp_p rnp_n2 rnp_r2 t_a t_b t_c t_d t_diff t_diff_best
       t_cross_best t_cross_cand t_vco_cand t_vco_best].
  replace (rnp_r2 best ^ 2) with (rnp_r2 best * rnp_r2 best) by ring.
  replace (r2 ^ 2) with (r2 * r2) by ring.
  rewrite ?Z.mul_assoc. reflexivity.
Qed.

End Exactness.

(** C2: the update rule is the stated case analysis.  An empty best
    record (p = 0) adopts the candidate; otherwise, on the values a, b,
    c, d, diff and diff_best the code computes, the rows of the decision
    table decide: both over budget, replace iff
    best.p * best.r2 * diff < p * r2 * diff_best; candidate within and
    best over, replace; candidate over and best within, keep; both
    within, replace iff n2 * best.r2^2 > best.n2 * r2^2.  On the domain
    of the search these values are the exact integers, and the rule is
    [update_spec]. *)
Theorem update_rule_case_analysis :
  (forall freq2k budget r2 n2 p best,
     let cand := mk_rnp p n2 r2 in
     let t := machine_terms freq2k budget cand best in
     let result := wrpll_update_rnp freq2k budget r2 n2 p best in
     (rnp_p best = 0 -> result = cand)
     /\ (rnp_p best <> 0 -> t_a t < t_c t -> t_b t < t_d t ->
         result = if t_cross_best t <? t_cross_cand t then cand else best)
     /\ (rnp_p best <> 0 -> t_a t >= t_c t -> t_b t < t_d t ->
         result = cand)
     /\ (rnp_p best <> 0 -> t_a t < t_c t -> t_b t >= t_d t ->
         result = best)
     /\ (rnp_p best <> 0 -> t_a t >= t_c t -> t_b t >= t_d t ->
         result = if t_vco_cand t >? t_vco_best t then cand else best))
  /\ (forall freq2k budget r2 n2 p best,
        0 <= freq2k <= FREQ2K_MAX -> 0 <= budget <= 5000 ->
        bounded (mk_rnp p n2 r2) -> bounded best ->
        wrpll_update_rnp freq2k budget r2 n2 p best
        = update_spec freq2k budget (mk_rnp p n2 r2) best).
Proof.
  split.
  - intros freq2k budget r2 n2 p best cand t result.
    subst result. rewrite wrpll_update_rnp_replaces.
    fold cand. unfold replaces. fold t.
    destruct (Z.eqb_spec (rnp_p best) 0) as [E | E].
    + repeat split; intros; congruence.
    + destruct (Z.ltb_spec (t_a t) (t_c t)), (Z.ltb_spec (t_b t) (t_d t));
        unfold decision_table;
        repeat split; intros; try reflexivity; try lia; congruence.
  - intros. now apply wrpll_update_rnp_exact.
Qed.

Lemma update_rule_case_analysis_witness :
  wrpll_update_rnp 270000 0 14 21 30 (mk_rnp 2 13 14)
  = update_spec 270000 0 (mk_rnp 30 21 14) (mk_rnp 2 13 14).
Proof.
  apply (proj2 update_rule_case_analysis 270000 0 14 21 30 (mk_rnp 2 13 14));
    unfold bounded; vm_compute; intuition discriminate.
Defined.

(** C7: of two candidates of which [x] is within the budget (its
    [1000000 * diff] is at most its [freq2k * budget * p * r2]) and [y]
    is over it, the update rule started on the zeroed record selects [x]
    in either order, whatever the two errors are.  A candidate is a
    divider triplet, so the [p] of [x] is not the 0 that marks the empty
    record. *)
Theorem in_budget_candidate_selected (freq2k budget : Z) (x y : wrpll_rnp) :
  rnp_p x <> 0 ->
  within_budget freq2k budget x = true ->
  within_budget freq2k budget y = false ->
  update_with freq2k budget (update_with freq2k budget rnp_zero x) y = x
  /\ update_with freq2k budget (update_with freq2k budget rnp_zero y) x = x.
Proof.
  intros Hp Hx Hy.
  unfold within_budget in Hx, Hy. rewrite geb_ltb in Hx, Hy.
  apply negb_true_iff in Hx. apply negb_false_iff in Hy.
  rewrite !update_with_zero.
  destruct x as [xp xn xr], y as [yp yn yr]. cbn [rnp_p rnp_n2 rnp_r2] in *.
  unfold update_with. cbn [rnp_p rnp_n2 rnp_r2].
  rewrite !wrpll_update_rnp_replaces. cbn [rnp_p].
  unfold replaces, machine_terms.
  cbn [rnp_p rnp_n2 rnp_r2 t_a t_b t_c t_d].
  rewrite Hx, Hy. cbn [decision_table].
  split.
  - destruct (Z.eqb_spec xp 0) as [E | _]; [contradiction | reflexivity].
  - destruct (yp =? 0); reflexivity.
Qed.

Lemma in_budget_candidate_selected_witness :
  update_with 270000 0 (update_with 270000 0 rnp_zero (mk_rnp 30 21 14))
    (mk_rnp 2 13 14) = mk_rnp 30 21 14
  /\ update_with 270000 0 (update_with 270000 0 rnp_zero (mk_rnp 2 13 14))
       (mk_rnp 30 21 14) = mk_rnp 30 21 14.
Proof.
  apply (in_budget_candidate_selected 270000 0 (mk_rnp 30 21 14)
           (mk_rnp 2 13 14)).
  - simpl. lia.
  - vm_compute. reflexivity.
  - vm_compute. reflexivity.
Defined.

(** C8: for a frequency of the supported domain (freq2k at most
    3000000), a budget among the six values, and a candidate and a best
    record within the ends of the loops (r2 <= 112, n2 <= 199,
    p <= 64), the values a, b, c, d, diff, diff_best, the two
    cross-products and the two sides of the n2 * r2^2 comparison that the
    code computes are the exact integers: they and the partial products
    on the way lie below 2^64 where the code computes in [uint64_t] and
    below 2^32 where it computes in [unsigned]. *)
Theorem update_terms_no_wraparound
    (freq2k budget : Z) (cand best : wrpll_rnp) :
  0 <= freq2k <= 3000000 ->
  In budget budget_values ->
  0 <= rnp_p cand <= 64 /\ 0 <= rnp_n2 cand <= 199 /\ 0 <= rnp_r2 cand <= 112 ->
  0 <= rnp_p best <= 64 /\ 0 <= rnp_n2 best <= 199 /\ 0 <= rnp_r2 best <= 112 ->
  let m := machine_terms freq2k budget cand best in
  let e := exact_terms freq2k budget cand best in
  m = e
  /\ Forall in_u64 [t_a e; t_b e; t_c e; t_d e; t_diff e; t_diff_best e;
                    t_cross_best e; t_cross_cand e;
                    freq2k * budget; freq2k * budget * rnp_p cand;
                    freq2k * budget * rnp_p best;
                    freq2k * rnp_p cand; freq2k * rnp_p cand * rnp_r2 cand;
                    freq2k * rnp_p best; freq2k * rnp_p best * rnp_r2 best]
  /\ Forall in_u32 [LC_FREQ_2K * rnp_n2 cand; LC_FREQ_2K * rnp_n2 best;
                    rnp_p cand * rnp_r2 cand; rnp_p best * rnp_r2 best;
                    rnp_n2 cand * rnp_r2 best; rnp_n2 best * rnp_r2 cand;
                    t_vco_cand e; t_vco_best e].
Proof.
  intros Hf Hb Hc Hbest m e.
  assert (Hf' : 0 <= freq2k <= FREQ2K_MAX)
    by (change FREQ2K_MAX with 21474836; lia).
  assert (Hb' : 0 <= budget <= 5000)
    by (unfold budget_values in Hb; simpl in Hb; lia).
  assert (Bc : bounded cand) by exact Hc.
  assert (Bb : bounded best) by exact Hbest.
  split; [now apply machine_terms_exact |].
  destruct Hc as (Hcp & Hcn & Hcr), Hbest as (Hbp & Hbn & Hbr).
  pose proof (proj2 (budget_term_exact _ _ Hf' Hb' _ _ Hcp Hcr)) as Ba.
  pose proof (proj2 (budget_term_exact _ _ Hf' Hb' _ _ Hbp Hbr)) as Bb'.
  pose proof (proj2 (clock_diff_exact _ Hf' _ _ _ Hcp Hcn Hcr)) as Bd.
  pose proof (proj2 (clock_diff_exact _ Hf' _ _ _ Hbp Hbn Hbr)) as Bd'.
  pose proof (prod_bounds _ _ _ _ Hcp Hcr) as Bpr.
  pose proof (prod_bounds _ _ _ _ Hbp Hbr) as Bpr'.
  pose proof (prod_bounds _ _ _ _ Bpr Bd') as Bx.
  pose proof (prod_bounds _ _ _ _ Bpr' Bd) as Bx'.
  pose proof (prod_bounds _ _ _ _ Hcn Hbr) as Bn.
  pose proof (prod_bounds _ _ _ _ Hbn Hcr) as Bn'.
  pose proof (prod_bounds _ _ _ _ Bn Hbr) as Bv.
  pose proof (prod_bounds _ _ _ _ Bn' Hcr) as Bv'.
  pose proof (prod_bounds _ _ _ _ Hf Hb') as Bfb.
  pose proof (prod_bounds _ _ _ _ Bfb Hcp) as Bfbp.
  pose proof (prod_bounds _ _ _ _ Bfb Hbp) as Bfbp'.
  pose proof (prod_bounds _ _ _ _ Hf Hcp) as Bfp.
  pose proof (prod_bounds _ _ _ _ Hf Hbp) as Bfp'.
  pose proof (prod_bounds _ _ _ _ Bfp Hcr) as Bfpr.
  pose proof (prod_bounds _ _ _ _ Bfp' Hbr) as Bfpr'.
  subst e. unfold exact_terms.
  cbn [t_a t_b t_c t_d t_diff t_diff_best t_cross_best t_cross_cand
       t_vco_cand t_vco_best].
  assert (Bm : 0 <= 1000000 <= 1000000) by lia.
  assert (Bl : 0 <= LC_FREQ_2K <= 5400000) by (change LC_FREQ_2K with 5400000; lia).
  pose proof (prod_bounds _ _ _ _ Bm Bd) as Bc'.
  pose proof (prod_bounds _ _ _ _ Bm Bd') as Bd''.
  pose proof (prod_bounds _ _ _ _ Bl Hcn) as Bln.
  pose proof (prod_bounds _ _ _ _ Bl Hbn) as Bln'.
  split.
  - repeat (apply Forall_cons;
            [eapply fits_u64; [eassumption | reflexivity] |]).
    apply Forall_nil.
  - repeat (apply Forall_cons;
            [eapply fits_u32; [eassumption | reflexivity] |]).
    apply Forall_nil.
Qed.

Lemma update_terms_no_wraparound_witness :
  machine_terms 2700000 4000 (mk_rnp 2 14 14) (mk_rnp 64 199 112)
  = exact_terms 2700000 4000 (mk_rnp 2 14 14) (mk_rnp 64 199 112).
Proof.
  apply (update_terms_no_wraparound 2700000 4000
           (mk_rnp 2 14 14) (mk_rnp 64 199 112)).
  - lia.
  - simpl. tauto.
  - simpl. lia.
  - simpl. lia.
Defined.

(** * The enumeration *)

Lemma count_from_In (n : nat) (lo step i : Z) :
  In i (count_from n lo step) <->
  exists k, 0 <= k < Z.of_nat n /\ i = lo + k * step.
Proof.
  revert lo. induction n as [| n IH]; intros lo.
  - simpl. split; [intros [] | intros [k [Hk _]]; lia].
  - cbn [count_from In]. rewrite IH. split.
    + intros [<- | [k [Hk ->]]].
      * exists 0. lia.
      * exists (k + 1). lia.
    + intros [k [Hk ->]].
      destruct (Z.eq_dec k 0) as [-> | Hne].
      * left. lia.
      * right. exists (k - 1). lia.
Qed.

(** The counter of a [for] loop takes the values [lo + k * step] that
    do not exceed [hi]. *)
Lemma for_range_In (lo hi step i : Z) :
  0 < step ->
  (In i (for_range lo hi step) <->
   exists k, 0 <= k /\ i = lo + k * step /\ i <= hi).
Proof.
  intros Hs. unfold for_range. rewrite count_from_In.
  set (q := (hi - lo + step) / step).
  assert (Hq : step * q <= hi - lo + step < step * q + step).
  { subst q. pose proof (Z.mul_div_le (hi - lo + step) step Hs).
    pose proof (Z.mul_succ_div_gt (hi - lo + step) step Hs). lia. }
  split.
  - intros [k [Hk ->]]. exists k. repeat split; try lia.
    assert (k + 1 <= q) by lia. nia.
  - intros [k [Hk [-> Hle]]]. exists k. split; [| reflexivity].
    assert (k < q) by nia. lia.
Qed.

Lemma r2_range_In (r2 : Z) :
  In r2 r2_range <->
  LC_FREQ * 2 / REF_MAX + 1 <= r2 <= LC_FREQ * 2 / REF_MIN.
Proof.
  unfold r2_range. rewrite for_range_In by lia.
  change (LC_FREQ * 2 / REF_MAX + 1) with 14.
  change (LC_FREQ * 2 / REF_MIN) with 112. split.
  - intros [k [Hk [-> Hle]]]. lia.
  - intros H. exists (r2 - 14). lia.
Qed.

Lemma n2_bounds_exact (r2 : Z) :
  0 <= r2 <= R2_MAX ->
  n2_lo r2 = VCO_MIN * r2 / LC_FREQ + 1 /\ n2_hi r2 = VCO_MAX * r2 / LC_FREQ
  /\ 0 <= VCO_MAX * r2 / LC_FREQ <= N2_MAX.
Proof.
  intros H. change R2_MAX with 112 in H. change N2_MAX with 199.
  unfold n2_lo, n2_hi, add32, div32.
  change VCO_MIN with 2400. change VCO_MAX with 4800. change LC_FREQ with 2700.
  rewrite (mul32_exact 2400 r2) by lia.
  rewrite (mul32_exact 4800 r2) by lia.
  assert (0 <= 2400 * r2 / 2700 < 100).
  { split; [apply Z.div_pos; lia | apply Z.div_lt_upper_bound; lia]. }
  assert (0 <= 4800 * r2 / 2700 < 200).
  { split; [apply Z.div_pos; lia | apply Z.div_lt_upper_bound; lia]. }
  rewrite (u32_small (2400 * r2 / 2700)) by lia.
  rewrite (u32_small (4800 * r2 / 2700)) by lia.
  rewrite u32_small by lia. lia.
Qed.

Lemma n2_range_In (r2 n2 : Z) :
  0 <= r2 <= R2_MAX ->
  (In n2 (n2_range r2) <->
   VCO_MIN * r2 / LC_FREQ + 1 <= n2 <= VCO_MAX * r2 / LC_FREQ).
Proof.
  intros H. destruct (n2_bounds_exact r2 H) as (Elo & Ehi & _).
  unfold n2_range. rewrite Elo, Ehi, for_range_In by lia. split.
  - intros [k [Hk [-> Hle]]]. lia.
  - intros Hn. exists (n2 - (VCO_MIN * r2 / LC_FREQ + 1)). lia.
Qed.

Lemma p_range_In (p : Z) :
  In p p_range <-> exists k, 1 <= k <= 32 /\ p = 2 * k.
Proof.
  unfold p_range. rewrite for_range_In by (unfold P_INC; lia).
  unfold P_MIN, P_MAX, P_INC. split.
  - intros [k [Hk [-> Hle]]]. exists (k + 1). lia.
  - intros [k [Hk ->]]. exists (k - 1). lia.
Qed.

Lemma candidates_In (t : wrpll_rnp) :
  In t candidates <->
  In (rnp_r2 t) r2_range /\ In (rnp_n2 t) (n2_range (rnp_r2 t))
  /\ In (rnp_p t) p_range.
Proof.
  unfold candidates. rewrite in_flat_map. split.
  - intros [r2 [Hr H]]. apply in_flat_map in H. destruct H as [n2 [Hn H]].
    apply in_map_iff in H. destruct H as [p [<- Hp]]. simpl. auto.
  - intros (Hr & Hn & Hp). exists (rnp_r2 t). split; [assumption |].
    apply in_flat_map. exists (rnp_n2 t). split; [assumption |].
    apply in_map_iff. exists (rnp_p t). split; [now destruct t | assumption].
Qed.

Lemma candidates_in_range (t : wrpll_rnp) : In t candidates <-> in_range t.
Proof.
  rewrite candidates_In, r2_range_In, p_range_In. unfold in_range.
  assert (Hb : LC_FREQ * 2 / REF_MAX + 1 <= rnp_r2 t <= LC_FREQ * 2 / REF_MIN
               -> 0 <= rnp_r2 t <= R2_MAX).
  { change (LC_FREQ * 2 / REF_MAX + 1) with 14.
    change (LC_FREQ * 2 / REF_MIN) with 112. change R2_MAX with 112. lia. }
  split.
  - intros (Hr & Hn & Hp). rewrite n2_range_In in Hn by auto. auto.
  - intros (Hr & Hn & Hp). rewrite n2_range_In by auto. auto.
Qed.

Lemma in_range_bounded (t : wrpll_rnp) : in_range t -> bounded t.
Proof.
  intros (Hr & Hn & [k [Hk Hp]]). unfold bounded.
  change R2_MAX with 112. change N2_MAX with 199. change P_MAX with 64.
  change (LC_FREQ * 2 / REF_MAX + 1) with 14 in Hr.
  change (LC_FREQ * 2 / REF_MIN) with 112 in Hr.
  change VCO_MIN with 2400 in Hn. change VCO_MAX with 4800 in Hn.
  change LC_FREQ with 2700 in Hn.
  assert (0 <= 2400 * rnp_r2 t / 2700) by (apply Z.div_pos; lia).
  assert (4800 * rnp_r2 t / 2700 < 200)
    by (apply Z.div_lt_upper_bound; lia).
  lia.
Qed.

Lemma in_range_positive (t : wrpll_rnp) :
  in_range t -> 0 < rnp_p t /\ 0 < rnp_n2 t /\ 0 < rnp_r2 t.
Proof.
  intros (Hr & Hn & [k [Hk Hp]]).
  change (LC_FREQ * 2 / REF_MAX + 1) with 14 in Hr.
  change VCO_MIN with 2400 in Hn. change LC_FREQ with 2700 in Hn.
  assert (0 <= 2400 * rnp_r2 t / 2700) by (apply Z.div_pos; lia).
  lia.
Qed.

(** ** The three loops as one fold over the candidates *)

Lemma fold_left_flat_map {A B S : Type} (g : S -> B -> S) (h : A -> list B)
    (l : list A) (s : S) :
  fold_left g (flat_map h l) s
  = fold_left (fun s x => fold_left g (h x) s) l s.
Proof.
  revert s. induction l as [| x l IH]; intros s; simpl.
  - reflexivity.
  - rewrite fold_left_app. apply IH.
Qed.

Lemma fold_left_map {A B S : Type} (g : S -> B -> S) (h : A -> B)
    (l : list A) (s : S) :
  fold_left g (map h l) s = fold_left (fun s x => g s (h x)) l s.
Proof.
  revert s. induction l as [| x l IH]; intros s; simpl; [reflexivity | apply IH].
Qed.

Lemma fold_left_ext_in {A S : Type} (g g' : S -> A -> S) (l : list A) (s : S) :
  (forall s x, In x l -> g s x = g' s x) ->
  fold_left g l s = fold_left g' l s.
Proof.
  revert s. induction l as [| x l IH]; intros s H; simpl; [reflexivity |].
  rewrite H by now left. apply IH. intros s' y Hy. apply H. now right.
Qed.

Lemma r2_loop_candidates (freq2k budget : Z) (best : wrpll_rnp) :
  r2_loop freq2k budget best
  = fold_left (update_with freq2k budget) candidates best.
Proof.
  unfold r2_loop, candidates. rewrite fold_left_flat_map.
  apply fold_left_ext_in. intros s r2 _.
  unfold n2_loop. rewrite fold_left_flat_map.
  apply fold_left_ext_in. intros s' n2 _.
  unfold p_loop. rewrite fold_left_map. reflexivity.
Qed.

Lemma candidates_head :
  exists rest, candidates = mk_rnp 2 13 14 :: rest.
Proof.
  exists (tl candidates).
  assert (H : hd_error candidates = Some (mk_rnp 2 13 14))
    by (vm_compute; reflexivity).
  destruct candidates as [| c rest]; [discriminate H |].
  simpl in H. injection H as ->. reflexivity.
Qed.

(** A fold of the update rule ends on its start or on a candidate. *)
Lemma fold_update_choice (freq2k budget : Z) (l : list wrpll_rnp)
    (best : wrpll_rnp) :
  let res := fold_left (update_with freq2k budget) l best in
  res = best \/ In res l.
Proof.
  revert best. induction l as [| c l IH]; intros best; simpl.
  - now left.
  - destruct (IH (update_with freq2k budget best c)) as [E | Hin].
    + rewrite E. destruct (update_with_choice freq2k budget best c) as [-> | ->];
        [right; now left | now left].
    + right. now right.
Qed.

Lemma search_result_candidate (freq2k budget : Z) :
  In (r2_loop freq2k budget rnp_zero) candidates.
Proof.
  rewrite r2_loop_candidates.
  destruct candidates_head as [rest E]. rewrite E.
  cbn [fold_left]. rewrite update_with_zero.
  destruct (fold_update_choice freq2k budget rest (mk_rnp 2 13 14)) as [-> | H].
  - now left.
  - now right.
Qed.

(** C5: off the bypass the search returns a triplet of strictly
    positive components with r2 in LC_FREQ*2/REF_MAX + 1 ..
    LC_FREQ*2/REF_MIN, that is 14 .. 112, n2 in VCO_MIN*r2/LC_FREQ + 1 ..
    VCO_MAX*r2/LC_FREQ for that r2, and p even between 2 and 64; the
    zeroed record is never returned.  This holds for every clock, the
    positive ones included: the bounds of the loops do not depend on
    it. *)
Theorem search_result_in_range (clock : Z) :
  freq2k_of clock <> 5400000 ->
  let t := wrpll_compute_rnp clock in
  (0 < rnp_p t /\ 0 < rnp_n2 t /\ 0 < rnp_r2 t)
  /\ 14 <= rnp_r2 t <= 112
  /\ in_range t
  /\ t <> rnp_zero.
Proof.
  intros Hf t.
  assert (Ht : in_range t).
  { apply (proj1 (candidates_in_range t)). subst t.
    unfold wrpll_compute_rnp, wrpll_compute_rnp_with.
    apply Z.eqb_neq in Hf. rewrite Hf.
    exact (search_result_candidate _ _). }
  pose proof (in_range_positive t Ht) as Hpos.
  split; [assumption |]. split; [| split; [assumption |]].
  - destruct Ht as (Hr & _). exact Hr.
  - intros E. rewrite E in Hpos. simpl in Hpos. lia.
Qed.

Lemma search_result_in_range_witness :
  in_range (wrpll_compute_rnp 19750000).
Proof.
  apply (search_result_in_range 19750000).
  vm_compute. discriminate.
Defined.

(** * Ties and the order of the enumeration *)

Lemma tied_not_replaces (freq2k budget : Z) (x y : wrpll_rnp) :
  tied freq2k budget x y -> replaces freq2k budget y x = false.
Proof.
  unfold tied, replaces, machine_terms.
  cbn [t_a t_b t_c t_d t_cross_best t_cross_cand t_vco_cand t_vco_best].
  intros [(Ha & Hb & Hv) | (Ha & Hb & Hc)].
  - destruct (Z.ltb_spec (budget_term freq2k budget (rnp_p y) (rnp_r2 y))
                (scaled_diff (clock_diff freq2k (rnp_r2 y) (rnp_n2 y) (rnp_p y))));
      [lia |].
    destruct (Z.ltb_spec (budget_term freq2k budget (rnp_p x) (rnp_r2 x))
                (scaled_diff (clock_diff freq2k (rnp_r2 x) (rnp_n2 x) (rnp_p x))));
      [lia |].
    cbn [decision_table]. rewrite Hv, Z.gtb_ltb. apply Z.ltb_irrefl.
  - destruct (Z.ltb_spec (budget_term freq2k budget (rnp_p y) (rnp_r2 y))
                (scaled_diff (clock_diff freq2k (rnp_r2 y) (rnp_n2 y) (rnp_p y))));
      [| lia].
    destruct (Z.ltb_spec (budget_term freq2k budget (rnp_p x) (rnp_r2 x))
                (scaled_diff (clock_diff freq2k (rnp_r2 x) (rnp_n2 x) (rnp_p x))));
      [| lia].
    cbn [decision_table]. rewrite Hc. apply Z.ltb_irrefl.
Qed.

Lemma tied_keeps_best (freq2k budget r2 n2 p : Z) (best : wrpll_rnp) :
  rnp_p best <> 0 ->
  tied freq2k budget (mk_rnp p n2 r2) best ->
  wrpll_update_rnp freq2k budget r2 n2 p best = best.
Proof.
  intros Hp Ht. rewrite wrpll_update_rnp_replaces.
  destruct (Z.eqb_spec (rnp_p best) 0) as [E | _]; [contradiction |].
  destruct (replaces freq2k budget (mk_rnp p n2 r2) best) eqn:E;
    [| reflexivity].
  exfalso. revert E Ht. unfold tied, replaces.
  set (t := machine_terms freq2k budget (mk_rnp p n2 r2) best).
  intros E [(Ha & Hb & Hv) | (Ha & Hb & Hc)].
  - destruct (Z.ltb_spec (t_a t) (t_c t)); [lia |].
    destruct (Z.ltb_spec (t_b t) (t_d t)); [lia |].
    cbn [decision_table] in E. rewrite Hv, Z.gtb_ltb, Z.ltb_irrefl in E.
    discriminate E.
  - destruct (Z.ltb_spec (t_a t) (t_c t)); [| lia].
    destruct (Z.ltb_spec (t_b t) (t_d t)); [| lia].
    cbn [decision_table] in E. rewrite Hc, Z.ltb_irrefl in E.
    discriminate E.
Qed.

(** Comparison of fractions with positive denominators by
    cross-multiplication is a strict weak order. *)
Lemma cross_lt_trans (a u b v c w : Z) :
  0 < u -> 0 < v -> 0 < w ->
  a * v < b * u -> b * w < c * v -> a * w < c * u.
Proof.
  intros Hu Hv Hw H1 H2.
  assert (a * v * w < b * u * w) by (apply Z.mul_lt_mono_pos_r; lia).
  assert (b * w * u < c * v * u) by (apply Z.mul_lt_mono_pos_r; lia).
  apply Z.mul_lt_mono_pos_l with (p := v); lia.
Qed.

Lemma cross_le_trans (a u b v c w : Z) :
  0 < u -> 0 < v -> 0 < w ->
  a * v <= b * u -> b * w <= c * v -> a * w <= c * u.
Proof.
  intros Hu Hv Hw H1 H2.
  assert (a * v * w <= b * u * w) by (apply Z.mul_le_mono_nonneg_r; lia).
  assert (b * w * u <= c * v * u) by (apply Z.mul_le_mono_nonneg_r; lia).
  apply Z.mul_le_mono_pos_l with (p := v); lia.
Qed.

Section Order.

Variables freq2k budget : Z.

Lemma in_range_weights (t : wrpll_rnp) :
  in_range t -> 0 < rnp_p t * rnp_r2 t /\ 0 < rnp_r2 t * rnp_r2 t.
Proof.
  intros H. destruct (in_range_positive t H) as (Hp & _ & Hr).
  split; apply Z.mul_pos_pos; assumption.
Qed.

Lemma better_trans (x y z : wrpll_rnp) :
  in_range x -> in_range y -> in_range z ->
  better freq2k budget x y = true -> better freq2k budget y z = true ->
  better freq2k budget x z = true.
Proof.
  intros Hx Hy Hz.
  destruct (in_range_weights x Hx) as [Wx Qx].
  destruct (in_range_weights y Hy) as [Wy Qy].
  destruct (in_range_weights z Hz) as [Wz Qz].
  unfold better.
  destruct (over_budget freq2k budget x), (over_budget freq2k budget y),
    (over_budget freq2k budget z); cbn [decision_table];
    try discriminate; try reflexivity.
  - rewrite !Z.ltb_lt. intros H1 H2.
    pose proof (cross_lt_trans (err freq2k x) (rnp_p x * rnp_r2 x)
                  (err freq2k y) (rnp_p y * rnp_r2 y)
                  (err freq2k z) (rnp_p z * rnp_r2 z) Wx Wy Wz).
    lia.
  - rewrite !Z.gtb_ltb, !Z.ltb_lt. intros H1 H2.
    pose proof (cross_lt_trans (rnp_n2 z) (rnp_r2 z * rnp_r2 z)
                  (rnp_n2 y) (rnp_r2 y * rnp_r2 y)
                  (rnp_n2 x) (rnp_r2 x * rnp_r2 x) Qz Qy Qx).
    lia.
Qed.

Lemma better_neg_trans (x y z : wrpll_rnp) :
  in_range x -> in_range y -> in_range z ->
  better freq2k budget x y = false -> better freq2k budget y z = false ->
  better freq2k budget x z = false.
Proof.
  intros Hx Hy Hz.
  destruct (in_range_weights x Hx) as [Wx Qx].
  destruct (in_range_weights y Hy) as [Wy Qy].
  destruct (in_range_weights z Hz) as [Wz Qz].
  unfold better.
  destruct (over_budget freq2k budget x), (over_budget freq2k budget y),
    (over_budget freq2k budget z); cbn [decision_table];
    try discriminate; try reflexivity.
  - rewrite !Z.ltb_ge. intros H1 H2.
    pose proof (cross_le_trans (err freq2k z) (rnp_p z * rnp_r2 z)
                  (err freq2k y) (rnp_p y * rnp_r2 y)
                  (err freq2k x) (rnp_p x * rnp_r2 x) Wz Wy Wx).
    lia.
  - rewrite !Z.gtb_ltb, !Z.ltb_ge. intros H1 H2.
    pose proof (cross_le_trans (rnp_n2 x) (rnp_r2 x * rnp_r2 x)
                  (rnp_n2 y) (rnp_r2 y * rnp_r2 y)
                  (rnp_n2 z) (rnp_r2 z * rnp_r2 z) Qx Qy Qz).
    lia.
Qed.

End Order.

Section FirstMax.

Context {A : Type} (P : A -> Prop) (beats : A -> A -> bool)
        (step : A -> A -> A).

Hypothesis beats_trans : forall x y z, P x -> P y -> P z ->
  beats x y = true -> beats y z = true -> beats x z = true.
Hypothesis beats_neg_trans : forall x y z, P x -> P y -> P z ->
  beats x y = false -> beats y z = false -> beats x z = false.
Hypothesis step_spec : forall m c, P m -> P c ->
  step m c = if beats c m then c else m.

Lemma first_max_step (l : list A) (m c : A) :
  Forall P l -> P c -> first_max beats l m ->
  first_max beats (l ++ [c]) (step m c).
Proof.
  intros Hl Hc (l1 & l2 & -> & H1 & H2).
  apply Forall_app in Hl. destruct Hl as [Hl1 Hl2].
  inversion Hl2 as [| m' l2' Hm Hl2' Eq]; subst.
  rewrite step_spec by assumption.
  destruct (beats c m) eqn:E.
  - exists (l1 ++ m :: l2), []. split; [reflexivity |].
    split; [| constructor].
    apply Forall_app. split; [| constructor; [assumption |]].
    + rewrite Forall_forall in *. intros x Hx.
      apply beats_trans with (y := m); auto.
    + rewrite Forall_forall in *. intros x Hx.
      destruct (beats c x) eqn:Ex; [reflexivity |].
      rewrite (beats_neg_trans c x m) in E; auto.
  - exists l1, (l2 ++ [c]). split; [now rewrite <- app_assoc |].
    split; [assumption |].
    apply Forall_app. split; [assumption | now constructor].
Qed.

Lemma first_max_fold (l pre : list A) (m : A) :
  Forall P pre -> Forall P l -> first_max beats pre m ->
  first_max beats (pre ++ l) (fold_left step l m).
Proof.
  revert pre m. induction l as [| c l IH]; intros pre m Hpre Hl Hm.
  - rewrite app_nil_r. exact Hm.
  - inversion Hl as [| c' l' Hc Hl' Eq]; subst.
    replace (pre ++ c :: l) with ((pre ++ [c]) ++ l)
      by (rewrite <- app_assoc; reflexivity).
    cbn [fold_left]. apply IH.
    + apply Forall_app. split; [assumption | now constructor].
    + assumption.
    + now apply first_max_step.
Qed.

End FirstMax.

Section SearchOrder.

Variables freq2k budget : Z.
Hypothesis Hfreq : 0 <= freq2k <= FREQ2K_MAX.
Hypothesis Hbudget : 0 <= budget <= 5000.

Lemma replaces_better (x y : wrpll_rnp) :
  in_range x -> in_range y ->
  replaces freq2k budget x y = better freq2k budget x y.
Proof.
  intros Hx Hy. unfold replaces.
  rewrite machine_terms_exact by auto using in_range_bounded.
  reflexivity.
Qed.

Lemma update_with_replaces (m c : wrpll_rnp) :
  in_range m -> in_range c ->
  update_with freq2k budget m c
  = if replaces freq2k budget c m then c else m.
Proof.
  intros Hm _. unfold update_with. rewrite wrpll_update_rnp_replaces.
  destruct (in_range_positive m Hm) as (Hp & _).
  destruct (Z.eqb_spec (rnp_p m) 0) as [E | _]; [lia |].
  now destruct c.
Qed.

Lemma search_first_max :
  first_max (replaces freq2k budget) candidates
    (r2_loop freq2k budget rnp_zero).
Proof.
  assert (Hall : Forall in_range candidates).
  { apply Forall_forall. intros t Ht.
    exact (proj1 (candidates_in_range t) Ht). }
  rewrite r2_loop_candidates.
  destruct candidates_head as [rest E]. rewrite E in *.
  cbn [fold_left]. rewrite update_with_zero.
  inversion Hall as [| c0 l0 Hc0 Hrest Eq]; subst.
  apply (first_max_fold in_range (replaces freq2k budget)
           (update_with freq2k budget)) with (pre := [mk_rnp 2 13 14]).
  - intros x y z Hx Hy Hz. rewrite !replaces_better by assumption.
    now apply better_trans.
  - intros x y z Hx Hy Hz. rewrite !replaces_better by assumption.
    now apply better_neg_trans.
  - exact update_with_replaces.
  - now constructor.
  - assumption.
  - exists [], []. repeat split; constructor.
Qed.

End SearchOrder.

Lemma count_from_NoDup (n : nat) (lo step : Z) :
  0 < step -> NoDup (count_from n lo step).
Proof.
  intros Hs. revert lo. induction n as [| n IH]; intros lo; cbn [count_from].
  - constructor.
  - constructor; [| apply IH].
    intros H. apply count_from_In in H. destruct H as [k [Hk E]]. nia.
Qed.

Lemma NoDup_flat_map_key {A B : Type} (key : B -> A) (h : A -> list B)
    (l : list A) :
  (forall x b, In x l -> In b (h x) -> key b = x) ->
  NoDup l -> (forall x, In x l -> NoDup (h x)) ->
  NoDup (flat_map h l).
Proof.
  intros Hkey Hl Hh. induction Hl as [| a l Ha Hl IH]; cbn [flat_map].
  - constructor.
  - apply NoDup_app.
    + apply Hh. now left.
    + apply IH.
      * intros x b Hx Hb. apply Hkey; [now right | assumption].
      * intros x Hx. apply Hh. now right.
    + intros b Hb Hin. apply in_flat_map in Hin.
      destruct Hin as [x [Hx Hbx]].
      assert (key b = a) by (apply Hkey; [now left | assumption]).
      assert (key b = x) by (apply Hkey; [now right | assumption]).
      apply Ha. congruence.
Qed.

Lemma candidates_distinct : NoDup candidates.
Proof.
  unfold candidates.
  apply (NoDup_flat_map_key rnp_r2).
  - intros r2 t _ Ht. apply in_flat_map in Ht. destruct Ht as [n2 [_ Ht]].
    apply in_map_iff in Ht. destruct Ht as [p [<- _]]. reflexivity.
  - apply count_from_NoDup. lia.
  - intros r2 _. apply (NoDup_flat_map_key rnp_n2).
    + intros n2 t _ Ht. apply in_map_iff in Ht.
      destruct Ht as [p [<- _]]. reflexivity.
    + apply count_from_NoDup. lia.
    + intros n2 _. apply NoDup_map_NoDup_ForallPairs.
      * intros p p' _ _ E. now injection E.
      * apply count_from_NoDup. unfold P_INC. lia.
Qed.

(** C10: the comparisons that replace the best record are strict.  A
    candidate that ties with a non-empty best record (both within
    budget with n2 * best.r2^2 = best.n2 * r2^2, or both over budget with
    best.p * best.r2 * diff = p * r2 * diff_best) leaves it in place.
    Hence, for a non-negative clock off the bypass, the returned triplet
    is the first maximum of the enumeration (ascending r2, then n2, then
    p, no triplet twice): the rule prefers it strictly to every candidate
    visited before it, none of which ties with it, and prefers no
    candidate visited after it, so that of the candidates that tie with
    it the returned one is the earliest. *)
Theorem ties_keep_earliest :
  (forall freq2k budget r2 n2 p best,
     rnp_p best <> 0 ->
     tied freq2k budget (mk_rnp p n2 r2) best ->
     wrpll_update_rnp freq2k budget r2 n2 p best = best)
  /\ (forall clock,
        0 <= clock <= INT_MAX -> freq2k_of clock <> 5400000 ->
        let f := freq2k_of clock in
        let b := wrpll_get_budget_for_freq clock in
        let res := wrpll_compute_rnp clock in
        NoDup candidates
        /\ exists l1 l2,
             candidates = l1 ++ res :: l2
             /\ Forall (fun x =>
                  replaces f b res x = true /\ ~ tied f b x res) l1
             /\ Forall (fun x => replaces f b x res = false) l2
             /\ (forall x, In x candidates -> tied f b x res ->
                 x = res \/ In x l2)).
Proof.
  split; [exact tied_keeps_best |].
  intros clock Hc Hf f b res. subst f b res.
  split; [exact candidates_distinct |].
  pose proof (search_first_max (freq2k_of clock)
                (wrpll_get_budget_for_freq clock)
                (freq2k_of_bounds clock Hc) (budget_bounds clock))
    as (l1 & l2 & E & H1 & H2).
  assert (Hres : wrpll_compute_rnp clock
                 = r2_loop (freq2k_of clock)
                     (wrpll_get_budget_for_freq clock) rnp_zero).
  { unfold wrpll_compute_rnp, wrpll_compute_rnp_with.
    apply Z.eqb_neq in Hf. rewrite Hf. reflexivity. }
  rewrite Hres.
  revert E H1 H2.
  generalize (r2_loop (freq2k_of clock) (wrpll_get_budget_for_freq clock)
                rnp_zero) as res.
  intros res E H1 H2.
  assert (H1' : Forall (fun x =>
                  replaces (freq2k_of clock)
                    (wrpll_get_budget_for_freq clock) res x = true
                  /\ ~ tied (freq2k_of clock)
                         (wrpll_get_budget_for_freq clock) x res) l1).
  { rewrite Forall_forall in H1. apply Forall_forall. intros x Hx.
    split; [exact (H1 x Hx) |].
    intros Ht. apply tied_not_replaces in Ht.
    rewrite (H1 x Hx) in Ht. discriminate Ht. }
  exists l1, l2. split; [exact E |]. split; [exact H1' |].
  split; [exact H2 |].
  intros x Hx Ht. rewrite E in Hx. apply in_app_or in Hx.
  destruct Hx as [Hx | [Hx | Hx]].
  - exfalso. rewrite Forall_forall in H1'. exact (proj2 (H1' x Hx) Ht).
  - left. symmetry. exact Hx.
  - right. exact Hx.
Qed.

Lemma ties_keep_earliest_witness :
  wrpll_update_rnp 251750 0 39 40 22 (mk_rnp 26 40 33) = mk_rnp 26 40 33
  /\ (NoDup candidates
      /\ exists l1 l2,
           candidates = l1 ++ wrpll_compute_rnp 25175000 :: l2
           /\ Forall (fun x =>
                replaces (freq2k_of 25175000)
                  (wrpll_get_budget_for_freq 25175000)
                  (wrpll_compute_rnp 25175000) x = true
                /\ ~ tied (freq2k_of 25175000)
                       (wrpll_get_budget_for_freq 25175000) x
                       (wrpll_compute_rnp 25175000)) l1
           /\ Forall (fun x =>
                replaces (freq2k_of 25175000)
                  (wrpll_get_budget_for_freq 25175000) x
                  (wrpll_compute_rnp 25175000) = false) l2
           /\ (forall x, In x candidates ->
               tied (freq2k_of 25175000)
                 (wrpll_get_budget_for_freq 25175000) x
                 (wrpll_compute_rnp 25175000) ->
               x = wrpll_compute_rnp 25175000 \/ In x l2)).
Proof.
  split.
  - apply (proj1 ties_keep_earliest 251750 0 39 40 22 (mk_rnp 26 40 33)).
    + simpl. lia.
    + right. vm_compute. repeat split; reflexivity.
  - refine (proj2 ties_keep_earliest 25175000 _ _).
    + unfold INT_MAX. lia.
    + vm_compute. discriminate.
Defined.

(** * The search on 63-bit integers computes the search *)

Lemma p_range_bounds (p : Z) : In p p_range -> 0 <= p <= P_MAX.
Proof.
  intros H. apply p_range_In in H. destruct H as [k [Hk ->]].
  unfold P_MAX. lia.
Qed.

(** A best record within its budget is kept by every candidate whose
    [n2 * r2 * r2] term is not higher. *)
Lemma update_settled (freq2k budget r2 n2 p : Z) (best : wrpll_rnp) :
  rnp_p best <> 0 ->
  within_budget freq2k budget best = true ->
  (vco_term n2 (rnp_r2 best) >? vco_term (rnp_n2 best) r2) = false ->
  wrpll_update_rnp freq2k budget r2 n2 p best = best.
Proof.
  intros Hp Hw Hv. rewrite wrpll_update_rnp_replaces.
  destruct (Z.eqb_spec (rnp_p best) 0) as [E | _]; [contradiction |].
  unfold replaces, machine_terms.
  cbn [rnp_p rnp_n2 rnp_r2 t_a t_b t_c t_d t_vco_cand t_vco_best].
  unfold within_budget in Hw. rewrite geb_ltb in Hw.
  apply negb_true_iff in Hw. rewrite Hw, Hv.
  destruct (budget_term freq2k budget p r2 <? _); reflexivity.
Qed.

Lemma p_loop_settled (freq2k budget r2 n2 : Z) (best : wrpll_rnp) :
  rnp_p best <> 0 ->
  within_budget freq2k budget best = true ->
  (vco_term n2 (rnp_r2 best) >? vco_term (rnp_n2 best) r2) = false ->
  p_loop freq2k budget r2 n2 best = best.
Proof.
  intros Hp Hw Hv. unfold p_loop.
  induction p_range as [| p l IH]; cbn [fold_left]; [reflexivity |].
  rewrite update_settled by assumption. exact IH.
Qed.

Lemma update_bounded (freq2k budget r2 n2 p : Z) (best : wrpll_rnp) :
  bounded (mk_rnp p n2 r2) -> bounded best ->
  bounded (wrpll_update_rnp freq2k budget r2 n2 p best).
Proof.
  intros Hc Hb.
  destruct (update_with_choice freq2k budget best (mk_rnp p n2 r2)) as [E | E];
    unfold update_with in E; cbn [rnp_p rnp_n2 rnp_r2] in E; rewrite E;
    assumption.
Qed.

Lemma fold_left_sim {A A' S S' : Type} (R : S' -> S -> Prop)
    (Q : A' -> A -> Prop) (g' : S' -> A' -> S') (g : S -> A -> S) :
  (forall x' x s' s, Q x' x -> R s' s -> R (g' s' x') (g s x)) ->
  forall l' l, Forall2 Q l' l ->
  forall s' s, R s' s -> R (fold_left g' l' s') (fold_left g l s).
Proof.
  intros Hstep l' l Hl. induction Hl as [| x' x l' l Hx Hl IH]; intros s' s Hs.
  - exact Hs.
  - cbn [fold_left]. apply IH. now apply Hstep.
Qed.

Lemma Forall2_map_l {A B : Type} (Q : B -> A -> Prop) (h : A -> B)
    (P : A -> Prop) (l : list A) :
  Forall P l -> (forall x, P x -> Q (h x) x) -> Forall2 Q (map h l) l.
Proof.
  intros Hl HQ. induction Hl as [| x l Hx Hl IH]; cbn [map]; constructor; auto.
Qed.

Lemma Forall2_same {A : Type} (Q : A -> A -> Prop) (P : A -> Prop)
    (l : list A) :
  Forall P l -> (forall x, P x -> Q x x) -> Forall2 Q l l.
Proof.
  intros Hl HQ. induction Hl as [| x l Hx Hl IH]; constructor; auto.
Qed.

Module FastFacts.

Import Fast.

Lemma wB_value : wB = 9223372036854775808.
Proof. reflexivity. Qed.

Lemma ltb63_Z (x y : int) : (x <? y)%uint63 = (to_Z x <? to_Z y).
Proof.
  destruct (Uint63.ltbP x y), (Z.ltb_spec (to_Z x) (to_Z y));
    try reflexivity; lia.
Qed.

Lemma leb63_Z (x y : int) : (x <=? y)%uint63 = (to_Z x <=? to_Z y).
Proof.
  destruct (Uint63.lebP x y), (Z.leb_spec (to_Z x) (to_Z y));
    try reflexivity; lia.
Qed.

Lemma eqb63_0 (x : int) : (x =? 0)%uint63 = (to_Z x =? 0).
Proof.
  destruct (Uint63.eqbP x 0) as [E | E], (Z.eqb_spec (to_Z x) 0);
    try reflexivity; rewrite Uint63.to_Z_0 in E; lia.
Qed.

Lemma mul63_exact (x y : int) :
  0 <= to_Z x * to_Z y < 9223372036854775808 ->
  to_Z (x * y) = to_Z x * to_Z y.
Proof.
  intros H. rewrite Uint63.mul_spec, wB_value. now apply Z.mod_small.
Qed.

Lemma of_Z_exact (z : Z) :
  0 <= z < 9223372036854775808 -> to_Z (of_Z z) = z.
Proof.
  intros H. rewrite Uint63.of_Z_spec, wB_value. now apply Z.mod_small.
Qed.

Lemma abs_diff63_exact (x y : int) :
  to_Z (abs_diff63 x y) = Z.abs (to_Z x - to_Z y).
Proof.
  unfold abs_diff63. rewrite ltb63_Z.
  pose proof (Uint63.to_Z_bounded x). pose proof (Uint63.to_Z_bounded y).
  rewrite wB_value in *.
  destruct (Z.ltb_spec (to_Z y) (to_Z x));
    rewrite Uint63.sub_spec, wB_value, Z.mod_small; lia.
Qed.

Section Terms.

Variables f bud : int.
Hypothesis Hf : 0 <= to_Z f <= FREQ2K_MAX.
Hypothesis Hbud : 0 <= to_Z bud <= 5000.

Lemma budget_term63_exact (p r2 : int) :
  0 <= to_Z p <= P_MAX -> 0 <= to_Z r2 <= R2_MAX ->
  to_Z (budget_term63 f bud p r2)
  = to_Z f * to_Z bud * to_Z p * to_Z r2.
Proof.
  intros Hp Hr. change FREQ2K_MAX with 21474836 in Hf.
  change P_MAX with 64 in Hp. change R2_MAX with 112 in Hr.
  pose proof (prod_bounds _ _ _ _ Hf Hbud) as H1.
  pose proof (prod_bounds _ _ _ _ H1 Hp) as H2.
  pose proof (prod_bounds _ _ _ _ H2 Hr) as H3.
  unfold budget_term63.
  rewrite (mul63_exact (f * bud * p)); rewrite (mul63_exact (f * bud));
    rewrite (mul63_exact f); lia.
Qed.

Lemma clock_diff63_exact (r2 n2 p : int) :
  0 <= to_Z p <= P_MAX -> 0 <= to_Z n2 <= N2_MAX ->
  0 <= to_Z r2 <= R2_MAX ->
  to_Z (clock_diff63 f r2 n2 p)
  = Z.abs (to_Z f * to_Z p * to_Z r2 - LC_FREQ_2K * to_Z n2).
Proof.
  intros Hp Hn Hr. change FREQ2K_MAX with 21474836 in Hf.
  change P_MAX with 64 in Hp. change R2_MAX with 112 in Hr.
  change N2_MAX with 199 in Hn. change LC_FREQ_2K with 5400000.
  pose proof (prod_bounds _ _ _ _ Hf Hp) as H1.
  pose proof (prod_bounds _ _ _ _ H1 Hr) as H2.
  unfold clock_diff63. rewrite abs_diff63_exact.
  assert (E : to_Z 5400000 = 5400000) by reflexivity.
  rewrite (mul63_exact (f * p)); rewrite (mul63_exact f);
    rewrite ?(mul63_exact 5400000); rewrite ?E; lia.
Qed.

Lemma scaled_diff63_exact (diff : int) :
  0 <= to_Z diff <= 153931624448 ->
  to_Z (scaled_diff63 diff) = 1000000 * to_Z diff.
Proof.
  intros H. unfold scaled_diff63.
  assert (E : to_Z 1000000 = 1000000) by reflexivity.
  rewrite mul63_exact; rewrite E; lia.
Qed.

Lemma cross_term63_exact (p r2 diff : int) :
  0 <= to_Z p <= P_MAX -> 0 <= to_Z r2 <= R2_MAX ->
  0 <= to_Z diff <= 153931624448 ->
  to_Z (cross_term63 p r2 diff) = to_Z p * to_Z r2 * to_Z diff.
Proof.
  intros Hp Hr Hd.
  change P_MAX with 64 in Hp. change R2_MAX with 112 in Hr.
  pose proof (prod_bounds _ _ _ _ Hp Hr) as H1.
  pose proof (prod_bounds _ _ _ _ H1 Hd) as H2.
  unfold cross_term63.
  rewrite (mul63_exact (p * r2)); rewrite (mul63_exact p); lia.
Qed.

Lemma vco_term63_exact (n2 r2 : int) :
  0 <= to_Z n2 <= N2_MAX -> 0 <= to_Z r2 <= R2_MAX ->
  to_Z (vco_term63 n2 r2) = to_Z n2 * to_Z r2 * to_Z r2.
Proof.
  intros Hn Hr.
  change N2_MAX with 199 in Hn. change R2_MAX with 112 in Hr.
  pose proof (prod_bounds _ _ _ _ Hn Hr) as H1.
  pose proof (prod_bounds _ _ _ _ H1 Hr) as H2.
  unfold vco_term63.
  rewrite (mul63_exact (n2 * r2)); rewrite (mul63_exact n2); lia.
Qed.

End Terms.

Section Loops.

Variables f bud : int.
Hypothesis Hf : 0 <= to_Z f <= FREQ2K_MAX.
Hypothesis Hbud : 0 <= to_Z bud <= 5000.

Lemma update63_spec (r2 n2 p : int) (best : rnp63) :
  bounded (mk_rnp (to_Z p) (to_Z n2) (to_Z r2)) -> bounded (to_rnp best) ->
  to_rnp (update63 f bud r2 n2 p best)
  = wrpll_update_rnp (to_Z f) (to_Z bud) (to_Z r2) (to_Z n2) (to_Z p)
      (to_rnp best).
Proof.
  intros Hc Hb. rewrite wrpll_update_rnp_replaces. unfold replaces.
  rewrite machine_terms_exact by assumption.
  destruct best as [[bp bn2] br2]. unfold to_rnp in *.
  destruct Hc as (Hcp & Hcn & Hcr), Hb as (Hbp & Hbn & Hbr).
  cbn [rnp_p rnp_n2 rnp_r2] in *.
  pose proof (proj2 (clock_diff_exact _ Hf _ _ _ Hcp Hcn Hcr)) as Bd.
  pose proof (proj2 (clock_diff_exact _ Hf _ _ _ Hbp Hbn Hbr)) as Bd'.
  pose proof (clock_diff63_exact f Hf r2 n2 p Hcp Hcn Hcr) as Ed.
  pose proof (clock_diff63_exact f Hf br2 bn2 bp Hbp Hbn Hbr) as Ed'.
  unfold update63, exact_terms.
  cbn [rnp_p rnp_n2 rnp_r2 t_a t_b t_c t_d t_diff t_diff_best
       t_cross_best t_cross_cand t_vco_cand t_vco_best].
  rewrite eqb63_0. destruct (to_Z bp =? 0); [reflexivity |].
  rewrite !ltb63_Z, !leb63_Z.
  rewrite !(budget_term63_exact f bud Hf Hbud) by assumption.
  rewrite !scaled_diff63_exact by (rewrite ?Ed, ?Ed'; assumption).
  rewrite !cross_term63_exact by (rewrite ?Ed, ?Ed'; assumption).
  rewrite !vco_term63_exact by assumption.
  rewrite Ed, Ed'. rewrite !Z.leb_antisym, Z.gtb_ltb.
  repeat match goal with
         | |- context [Z.ltb ?x ?y] => destruct (Z.ltb x y)
         end; reflexivity.
Qed.

Lemma settled63_sound (r2 n2 : int) (best : rnp63) :
  0 <= to_Z n2 <= N2_MAX -> 0 <= to_Z r2 <= R2_MAX ->
  bounded (to_rnp best) ->
  settled63 f bud r2 n2 best = true ->
  rnp_p (to_rnp best) <> 0
  /\ within_budget (to_Z f) (to_Z bud) (to_rnp best) = true
  /\ (vco_term (to_Z n2) (rnp_r2 (to_rnp best))
      >? vco_term (rnp_n2 (to_rnp best)) (to_Z r2)) = false.
Proof.
  intros Hn Hr Hb. destruct best as [[bp bn2] br2].
  unfold to_rnp in *. destruct Hb as (Hbp & Hbn & Hbr).
  cbn [rnp_p rnp_n2 rnp_r2] in *.
  pose proof (clock_diff_exact _ Hf _ _ _ Hbp Hbn Hbr) as [Ed Bd].
  pose proof (clock_diff63_exact f Hf br2 bn2 bp Hbp Hbn Hbr) as Ed'.
  unfold settled63, within_budget. cbn [rnp_p rnp_n2 rnp_r2].
  rewrite !andb_true_iff, !negb_true_iff.
  rewrite eqb63_0, leb63_Z, ltb63_Z.
  rewrite (budget_term63_exact f bud Hf Hbud) by assumption.
  rewrite scaled_diff63_exact by (rewrite Ed'; assumption).
  rewrite !vco_term63_exact by assumption.
  rewrite Ed'.
  rewrite (proj1 (budget_term_exact _ _ Hf Hbud _ _ Hbp Hbr)).
  rewrite Ed, scaled_diff_exact by assumption.
  rewrite !vco_term_exact by assumption.
  rewrite Z.geb_leb, Z.gtb_ltb.
  intros [[H0 Hw] Hv]. apply Z.eqb_neq in H0. auto.
Qed.

Lemma p_loop63_spec (r2 n2 : Z) (best : rnp63) :
  0 <= n2 <= N2_MAX -> 0 <= r2 <= R2_MAX ->
  bounded (to_rnp best) ->
  to_rnp (p_loop63 (map of_Z p_range) f bud (of_Z r2) (of_Z n2) best)
  = p_loop (to_Z f) (to_Z bud) r2 n2 (to_rnp best)
  /\ bounded (p_loop (to_Z f) (to_Z bud) r2 n2 (to_rnp best)).
Proof.
  intros Hn Hr Hb.
  assert (En : to_Z (of_Z n2) = n2)
    by (apply of_Z_exact; change N2_MAX with 199 in Hn; lia).
  assert (Er : to_Z (of_Z r2) = r2)
    by (apply of_Z_exact; change R2_MAX with 112 in Hr; lia).
  unfold p_loop63.
  destruct (settled63 f bud (of_Z r2) (of_Z n2) best) eqn:E.
  - apply settled63_sound in E; rewrite ?En, ?Er in *; try assumption.
    destruct E as (Hp & Hw & Hv).
    rewrite p_loop_settled by assumption. auto.
  - unfold p_loop.
    apply (fold_left_sim
             (fun s' s => to_rnp s' = s /\ bounded s)
             (fun p' p => to_Z p' = p /\ 0 <= p <= P_MAX)).
    + intros p' p s' s [<- Hp] [<- Hs]. split.
      * rewrite update63_spec; rewrite ?En, ?Er; try assumption;
          [reflexivity | unfold bounded; cbn [rnp_p rnp_n2 rnp_r2]; lia].
      * apply update_bounded;
          [unfold bounded; cbn [rnp_p rnp_n2 rnp_r2]; lia | assumption].
    + apply Forall2_map_l with (P := fun p => In p p_range).
      * apply Forall_forall. auto.
      * intros p Hp. apply p_range_bounds in Hp. split; [| assumption].
        apply of_Z_exact. change P_MAX with 64 in Hp. lia.
    + auto.
Qed.

End Loops.

Lemma n2_range_bounds (r2 n2 : Z) :
  0 <= r2 <= R2_MAX -> In n2 (n2_range r2) -> 0 <= n2 <= N2_MAX.
Proof.
  intros Hr Hn. apply n2_range_In in Hn; [| assumption].
  destruct (n2_bounds_exact r2 Hr) as (_ & _ & H).
  assert (0 <= VCO_MIN * r2 / LC_FREQ)
    by (apply Z.div_pos; [change VCO_MIN with 2400 | change LC_FREQ with 2700];
        lia).
  lia.
Qed.

Lemma r2_range_bounds (r2 : Z) : In r2 r2_range -> 0 <= r2 <= R2_MAX.
Proof.
  intros H. apply r2_range_In in H.
  change (LC_FREQ * 2 / REF_MAX + 1) with 14 in H.
  change (LC_FREQ * 2 / REF_MIN) with 112 in H.
  change R2_MAX with 112. lia.
Qed.

Lemma search63_spec (freq2k budget : Z) :
  0 <= freq2k <= FREQ2K_MAX -> 0 <= budget <= 5000 ->
  to_rnp (search63 freq2k budget) = r2_loop freq2k budget rnp_zero.
Proof.
  intros Hf Hb.
  assert (Ef : to_Z (of_Z freq2k) = freq2k)
    by (apply of_Z_exact; change FREQ2K_MAX with 21474836 in Hf; lia).
  assert (Eb : to_Z (of_Z budget) = budget) by (apply of_Z_exact; lia).
  assert (Hf' : 0 <= to_Z (of_Z freq2k) <= FREQ2K_MAX) by now rewrite Ef.
  assert (Hb' : 0 <= to_Z (of_Z budget) <= 5000) by now rewrite Eb.
  unfold search63, r2_loop.
  refine (proj1 (fold_left_sim
            (fun s' s => to_rnp s' = s /\ bounded s)
            (fun r' r => r' = r /\ 0 <= r <= R2_MAX)
            _ _ _ r2_range r2_range _ _ _ _)).
  - intros r' r s' s [-> Hr] Hs. unfold n2_loop.
    apply (fold_left_sim
             (fun s' s => to_rnp s' = s /\ bounded s)
             (fun n' n => n' = n /\ 0 <= n <= N2_MAX)).
    + intros n' n t' t [-> Hn] [<- Ht].
      pose proof (p_loop63_spec _ _ Hf' Hb' r n t' Hn Hr Ht) as [E B].
      rewrite Ef, Eb in E, B. auto.
    + apply Forall2_same with (P := fun n => In n (n2_range r)).
      * apply Forall_forall. auto.
      * intros n Hn. split; [reflexivity |]. now apply n2_range_bounds with r.
    + assumption.
  - apply Forall2_same with (P := fun r => In r r2_range).
    + apply Forall_forall. auto.
    + intros r Hr. split; [reflexivity |]. now apply r2_range_bounds.
  - split; [reflexivity |]. unfold bounded, rnp_zero. simpl.
    change P_MAX with 64. change N2_MAX with 199. change R2_MAX with 112. lia.
Qed.

End FastFacts.

Lemma rnp_eqb_eq (x y : wrpll_rnp) : rnp_eqb x y = true <-> x = y.
Proof.
  unfold rnp_eqb. rewrite !andb_true_iff, !Z.eqb_eq.
  destruct x, y; simpl. split.
  - intros [[-> ->] ->]. reflexivity.
  - intros H. injection H as -> -> ->. auto.
Qed.

Lemma entry_ok_sound (ref : wrpll_tmds_clock) :
  entry_ok ref = true -> wrpll_compute_rnp (tmds_clock ref) = expected ref.
Proof.
  unfold entry_ok. rewrite !andb_true_iff, negb_true_iff.
  rewrite Z.leb_le, Z.leb_le, rnp_eqb_eq.
  intros [[[H0 H1] Hf] E].
  unfold wrpll_compute_rnp, wrpll_compute_rnp_with. rewrite Hf.
  rewrite <- E. symmetry. apply FastFacts.search63_spec.
  - apply freq2k_of_bounds. lia.
  - apply budget_bounds.
Qed.

Lemma table_entries_ok : forallb entry_ok wrpll_tmds_clock_table = true.
Proof. vm_compute. reflexivity. Qed.

Lemma table_reproduced (ref : wrpll_tmds_clock) :
  In ref wrpll_tmds_clock_table ->
  wrpll_compute_rnp (tmds_clock ref) = expected ref.
Proof.
  intros H. apply entry_ok_sound.
  exact (proj1 (forallb_forall entry_ok wrpll_tmds_clock_table)
           table_entries_ok ref H).
Qed.

(** C1: the search reproduces every entry of the reference table, all
    three components equal; the table has 373 entries, among them
    19750000 -> (p=38, n2=25, r2=18), 27000000 -> (p=30, n2=21, r2=14),
    108000000 -> (p=8, n2=24, r2=15) and 270000000 -> (p=2, n2=14,
    r2=14). *)
Theorem table_exact_reproduction :
  length wrpll_tmds_clock_table = 373%nat
  /\ Forall (fun ref =>
       wrpll_compute_rnp (tmds_clock ref)
       = mk_rnp (tmds_p ref) (tmds_n2 ref) (tmds_r2 ref))
       wrpll_tmds_clock_table
  /\ wrpll_compute_rnp 19750000 = mk_rnp 38 25 18
  /\ wrpll_compute_rnp 27000000 = mk_rnp 30 21 14
  /\ wrpll_compute_rnp 108000000 = mk_rnp 8 24 15
  /\ wrpll_compute_rnp 270000000 = mk_rnp 2 14 14.
Proof.
  split; [vm_compute; reflexivity |].
  split; [apply Forall_forall; exact table_reproduced |].
  split; [| split; [| split]].
  - apply (entry_ok_sound (tmds 19750000 38 25 18)). vm_compute. reflexivity.
  - apply (entry_ok_sound (tmds 27000000 30 21 14)). vm_compute. reflexivity.
  - apply (entry_ok_sound (tmds 108000000 8 24 15)). vm_compute. reflexivity.
  - apply (entry_ok_sound (tmds 270000000 2 14 14)). vm_compute. reflexivity.
Qed.

(** The reference table does not have 339 entries. *)
Lemma table_not_339_entries : length wrpll_tmds_clock_table <> 339%nat.
Proof. vm_compute. discriminate. Qed.

(** * The checking loop *)

Lemma check_entry_mismatch (h : harness) (ref : wrpll_tmds_clock) :
  check_entry h ref
  = if mismatch ref then mk_harness (reports h ++ [diagnostic ref]) true
    else h.
Proof.
  unfold check_entry, mismatch, igt_fail_on_f, rnp_eqb, expected.
  cbn [rnp_p rnp_n2 rnp_r2].
  rewrite (Z.eqb_sym (tmds_r2 ref)), (Z.eqb_sym (tmds_n2 ref)),
    (Z.eqb_sym (tmds_p ref)).
  destruct (_ =? tmds_r2 ref), (_ =? tmds_n2 ref), (_ =? tmds_p ref);
    reflexivity.
Qed.



Lemma int_of_u32_small (x : Z) : x <= INT_MAX -> int_of_u32 x = x.
Proof.
  intros H. unfold int_of_u32. apply Z.leb_le in H. rewrite H. reflexivity.
Qed.

Lemma table_clock_int (ref : wrpll_tmds_clock) :
  In ref wrpll_tmds_clock_table -> tmds_clock ref <= INT_MAX.
Proof.
  intros H.
  pose proof (proj1 (forallb_forall entry_ok wrpll_tmds_clock_table)
                table_entries_ok ref H) as E.
  unfold entry_ok in E. rewrite !andb_true_iff in E.
  destruct E as [[[_ E] _] _]. now apply Z.leb_le.
Qed.

Lemma check_loop_no_mismatch (table : list wrpll_tmds_clock) (h : harness) :
  Forall (fun ref => mismatch ref = false) table ->
  fold_left check_entry table h = h.
Proof.
  intros H. revert h. induction H as [| ref table Href Ht IH]; intros h;
    cbn [fold_left]; [reflexivity |].
  rewrite check_entry_mismatch, Href. apply IH.
Qed.

Lemma table_no_mismatch :
  Forall (fun ref => mismatch ref = false) wrpll_tmds_clock_table.
Proof.
  apply Forall_forall. intros ref Href. unfold mismatch.
  rewrite (int_of_u32_small _ (table_clock_int ref Href)).
  apply negb_false_iff. apply rnp_eqb_eq. now apply table_reproduced.
Qed.






(** * Further properties of the search *)

Lemma replaces_irrefl (freq2k budget : Z) (t : wrpll_rnp) :
  replaces freq2k budget t t = false.
Proof.
  unfold replaces, machine_terms, decision_table.
  cbn [t_a t_b t_c t_d t_cross_best t_cross_cand t_vco_cand t_vco_best].
  rewrite Z.gtb_ltb, !Z.ltb_irrefl.
  destruct (budget_term freq2k budget (rnp_p t) (rnp_r2 t) <? _); reflexivity.
Qed.

Lemma within_budget_over (freq2k budget : Z) (t : wrpll_rnp) :
  0 <= freq2k <= FREQ2K_MAX -> 0 <= budget <= 5000 -> bounded t ->
  within_budget freq2k budget t = negb (over_budget freq2k budget t).
Proof.
  intros Hf Hb (Hp & Hn & Hr). unfold within_budget, over_budget, err.
  destruct (clock_diff_exact _ Hf _ _ _ Hp Hn Hr) as [Ed Bd].
  rewrite (proj1 (budget_term_exact _ _ Hf Hb _ _ Hp Hr)).
  rewrite Ed, scaled_diff_exact by assumption.
  apply geb_ltb.
Qed.

Section Unbeaten.

Variables freq2k budget : Z.
Hypothesis Hfreq : 0 <= freq2k <= FREQ2K_MAX.
Hypothesis Hbudget : 0 <= budget <= 5000.

Lemma replaces_asym (x y : wrpll_rnp) :
  in_range x -> in_range y ->
  replaces freq2k budget x y = true -> replaces freq2k budget y x = false.
Proof.
  intros Hx Hy H.
  destruct (replaces freq2k budget y x) eqn:E; [| reflexivity].
  rewrite replaces_better in H, E by assumption.
  pose proof (better_trans freq2k budget x y x Hx Hy Hx H E) as T.
  rewrite <- replaces_better, replaces_irrefl in T by assumption.
  discriminate T.
Qed.

(** No candidate replaces the triplet the loops end on. *)
Lemma search_unbeaten (x : wrpll_rnp) :
  In x candidates ->
  replaces freq2k budget x (r2_loop freq2k budget rnp_zero) = false.
Proof.
  intros Hx.
  pose proof (search_first_max freq2k budget Hfreq Hbudget)
    as (l1 & l2 & E & H1 & H2).
  assert (Hall : forall t, In t candidates -> in_range t)
    by (intros t Ht; exact (proj1 (candidates_in_range t) Ht)).
  set (res := r2_loop freq2k budget rnp_zero) in *.
  assert (Hres : in_range res)
    by exact (Hall res (search_result_candidate freq2k budget)).
  rewrite Forall_forall in H1, H2.
  pose proof Hx as Hx'. rewrite E in Hx'.
  apply in_app_or in Hx'. destruct Hx' as [Hin | [<- | Hin]].
  - apply replaces_asym; auto.
  - apply replaces_irrefl.
  - auto.
Qed.

Lemma search_unbeaten_better (x : wrpll_rnp) :
  In x candidates ->
  let res := r2_loop freq2k budget rnp_zero in
  in_range x /\ in_range res /\ better freq2k budget x res = false.
Proof.
  intros Hx res.
  assert (Hxr : in_range x) by exact (proj1 (candidates_in_range x) Hx).
  assert (Hres : in_range res)
    by exact (proj1 (candidates_in_range res)
                (search_result_candidate freq2k budget)).
  split; [assumption | split; [assumption |]].
  subst res. rewrite <- replaces_better by assumption.
  apply search_unbeaten. exact Hx.
Qed.

End Unbeaten.

Lemma compute_off_bypass (clock : Z) :
  freq2k_of clock <> 5400000 ->
  wrpll_compute_rnp clock
  = r2_loop (freq2k_of clock) (wrpll_get_budget_for_freq clock) rnp_zero.
Proof.
  intros Hf. unfold wrpll_compute_rnp, wrpll_compute_rnp_with.
  apply Z.eqb_neq in Hf. rewrite Hf. reflexivity.
Qed.

Lemma fold_update_fixed (freq2k budget : Z) (l : list wrpll_rnp)
    (best : wrpll_rnp) :
  (forall x, In x l -> update_with freq2k budget best x = best) ->
  fold_left (update_with freq2k budget) l best = best.
Proof.
  induction l as [| c l IH]; intros H; cbn [fold_left]; [reflexivity |].
  rewrite H by now left. apply IH. intros x Hx. apply H. now right.
Qed.

(** X1: the triplet returned for a non-negative clock off the bypass is
    stable: offering it any candidate of the enumeration again leaves it
    in place, and so does running the three loops once more from it. *)
Theorem search_result_stable (clock : Z) :
  0 <= clock <= INT_MAX -> freq2k_of clock <> 5400000 ->
  let f := freq2k_of clock in
  let b := wrpll_get_budget_for_freq clock in
  let res := wrpll_compute_rnp clock in
  (forall x, In x candidates -> update_with f b res x = res)
  /\ r2_loop f b res = res.
Proof.
  intros Hc Hf f b res. subst f b res.
  rewrite compute_off_bypass by assumption.
  pose proof (freq2k_of_bounds clock Hc) as Bf.
  pose proof (budget_bounds clock) as Bb.
  set (f := freq2k_of clock) in *.
  set (b := wrpll_get_budget_for_freq clock) in *.
  assert (Hstep : forall x, In x candidates ->
            update_with f b (r2_loop f b rnp_zero) x = r2_loop f b rnp_zero).
  { intros x Hx.
    destruct (search_unbeaten_better f b Bf Bb x Hx) as (Hxr & Hres & _).
    rewrite (update_with_replaces f b) by assumption.
    rewrite (search_unbeaten f b Bf Bb x Hx).
    reflexivity. }
  split; [exact Hstep |].
  rewrite r2_loop_candidates at 1. apply fold_update_fixed. exact Hstep.
Qed.

Lemma search_result_stable_witness :
  r2_loop (freq2k_of 19750000) (wrpll_get_budget_for_freq 19750000)
    (wrpll_compute_rnp 19750000)
  = wrpll_compute_rnp 19750000.
Proof.
  apply (search_result_stable 19750000).
  - unfold INT_MAX. lia.
  - vm_compute. discriminate.
Defined.

(** X2: when some candidate of the enumeration is within the budget,
    the returned triplet is within the budget too, and no candidate
    within the budget has a higher n2 / r2^2 (compared by
    cross-multiplication). *)
Theorem search_prefers_within_budget (clock : Z) (x : wrpll_rnp) :
  0 <= clock <= INT_MAX -> freq2k_of clock <> 5400000 ->
  In x candidates ->
  within_budget (freq2k_of clock) (wrpll_get_budget_for_freq clock) x = true ->
  let res := wrpll_compute_rnp clock in
  within_budget (freq2k_of clock) (wrpll_get_budget_for_freq clock) res = true
  /\ rnp_n2 x * rnp_r2 res * rnp_r2 res <= rnp_n2 res * rnp_r2 x * rnp_r2 x.
Proof.
  intros Hc Hf Hx Hw res. subst res.
  rewrite compute_off_bypass by assumption.
  pose proof (freq2k_of_bounds clock Hc) as Bf.
  pose proof (budget_bounds clock) as Bb.
  destruct (search_unbeaten_better _ _ Bf Bb x Hx) as (Hxr & Hres & Hbt).
  revert Hw Hres Hbt Bf Bb.
  generalize (wrpll_get_budget_for_freq clock) as b.
  generalize (freq2k_of clock) as f. intros f b.
  generalize (r2_loop f b rnp_zero) as res. intros res Hw Hres Hbt Bf Bb.
  rewrite (within_budget_over f b res) by auto using in_range_bounded.
  rewrite (within_budget_over f b x) in Hw by auto using in_range_bounded.
  apply negb_true_iff in Hw. unfold better in Hbt. rewrite Hw in Hbt.
  destruct (over_budget f b res); cbn [decision_table] in Hbt;
    [discriminate Hbt |].
  split; [reflexivity |].
  rewrite Z.gtb_ltb in Hbt. apply Z.ltb_ge in Hbt. exact Hbt.
Qed.

Lemma search_prefers_within_budget_witness :
  within_budget (freq2k_of 27000000) (wrpll_get_budget_for_freq 27000000)
    (wrpll_compute_rnp 27000000) = true
  /\ 21 * rnp_r2 (wrpll_compute_rnp 27000000)
        * rnp_r2 (wrpll_compute_rnp 27000000)
     <= rnp_n2 (wrpll_compute_rnp 27000000) * 14 * 14.
Proof.
  apply (search_prefers_within_budget 27000000 (mk_rnp 30 21 14)).
  - unfold INT_MAX. lia.
  - vm_compute. discriminate.
  - apply (proj2 (candidates_in_range (mk_rnp 30 21 14))).
    unfold in_range. cbn [rnp_p rnp_n2 rnp_r2].
    split; [| split]; [vm_compute; intuition discriminate ..| exists 15; lia].
  - vm_compute. reflexivity.
Defined.

(** X3: when the returned triplet is over the budget, every candidate
    of the enumeration is over it, and the returned one has the smallest
    error relative to p * r2, that is the output clock closest to the
    target. *)
Theorem search_closest_when_over_budget (clock : Z) (x : wrpll_rnp) :
  0 <= clock <= INT_MAX -> freq2k_of clock <> 5400000 ->
  let f := freq2k_of clock in
  let b := wrpll_get_budget_for_freq clock in
  let res := wrpll_compute_rnp clock in
  within_budget f b res = false ->
  In x candidates ->
  within_budget f b x = false
  /\ rnp_p x * rnp_r2 x * err f res <= rnp_p res * rnp_r2 res * err f x.
Proof.
  intros Hc Hf f b res. subst f b res.
  rewrite compute_off_bypass by assumption.
  pose proof (freq2k_of_bounds clock Hc) as Bf.
  pose proof (budget_bounds clock) as Bb.
  intros Hw Hx.
  destruct (search_unbeaten_better _ _ Bf Bb x Hx) as (Hxr & Hres & Hbt).
  revert Hw Hres Hbt Bf Bb.
  generalize (wrpll_get_budget_for_freq clock) as b.
  generalize (freq2k_of clock) as f. intros f b.
  generalize (r2_loop f b rnp_zero) as res. intros res Hw Hres Hbt Bf Bb.
  rewrite (within_budget_over f b x) by auto using in_range_bounded.
  rewrite (within_budget_over f b res) in Hw by auto using in_range_bounded.
  apply negb_false_iff in Hw. unfold better in Hbt. rewrite Hw in Hbt.
  destruct (over_budget f b x); cbn [decision_table] in Hbt;
    [| discriminate Hbt].
  split; [reflexivity |].
  apply Z.ltb_ge in Hbt. exact Hbt.
Qed.

Lemma search_closest_when_over_budget_witness :
  within_budget (freq2k_of 25175000) (wrpll_get_budget_for_freq 25175000)
    (mk_rnp 2 13 14) = false
  /\ 2 * 14 * err (freq2k_of 25175000) (wrpll_compute_rnp 25175000)
     <= rnp_p (wrpll_compute_rnp 25175000)
        * rnp_r2 (wrpll_compute_rnp 25175000)
        * err (freq2k_of 25175000) (mk_rnp 2 13 14).
Proof.
  apply (search_closest_when_over_budget 25175000 (mk_rnp 2 13 14)).
  - unfold INT_MAX. lia.
  - vm_compute. discriminate.
  - assert (E : wrpll_compute_rnp 25175000 = mk_rnp 26 40 33).
    { apply (entry_ok_sound (tmds 25175000 26 40 33)).
      vm_compute. reflexivity. }
    rewrite E. vm_compute. reflexivity.
  - apply (proj2 (candidates_in_range (mk_rnp 2 13 14))).
    unfold in_range. cbn [rnp_p rnp_n2 rnp_r2].
    split; [| split]; [vm_compute; intuition discriminate ..| exists 1; lia].
Defined.

(** ** The bypass, exactly *)

Lemma freq2k_of_negative (clock : Z) :
  - INT_MAX - 1 <= clock < 0 ->
  freq2k_of clock = 0 \/ 2 ^ 64 - 21474836 <= freq2k_of clock.
Proof.
  intros H. unfold freq2k_of, INT_MAX in *.
  replace clock with (- (- clock)) by lia.
  rewrite Z.quot_opp_l by lia. rewrite Z.quot_div_nonneg by lia.
  assert (0 <= - clock / 100 < 21474837).
  { split; [apply Z.div_pos; lia |].
    apply Z.div_lt_upper_bound; lia. }
  destruct (Z.eq_dec (- clock / 100) 0) as [E | E].
  - left. rewrite E. reflexivity.
  - right. unfold u64.
    rewrite <- (Z.mod_unique (- (- clock / 100)) (2 ^ 64) (-1)
                  (2 ^ 64 - (- clock / 100))); lia.
Qed.

(** X4: among the clocks an [int] can hold, the bypass is taken exactly
    by the hundred clocks 540000000 .. 540000099 Hz, and the triplet
    (p = 1, n2 = 2, r2 = 2) is returned for these clocks and for no
    other. *)
Theorem bypass_exactly_truncated_540MHz (clock : Z) :
  - INT_MAX - 1 <= clock <= INT_MAX ->
  (freq2k_of clock = 5400000 <-> 540000000 <= clock <= 540000099)
  /\ (wrpll_compute_rnp clock = mk_rnp 1 2 2
      <-> 540000000 <= clock <= 540000099).
Proof.
  intros H.
  assert (Hiff : freq2k_of clock = 5400000 <-> 540000000 <= clock <= 540000099).
  { destruct (Z_lt_le_dec clock 0) as [Hneg | Hpos].
    - destruct (freq2k_of_negative clock) as [E | E]; [lia | |];
        split; intros; lia.
    - rewrite freq2k_of_nonneg by lia. split.
      + intros E.
        pose proof (Z.mul_div_le clock 100). 
        pose proof (Z.mul_succ_div_gt clock 100). lia.
      + intros Hr. symmetry.
        apply Z.div_unique with (r := clock - 540000000); lia. }
  split; [exact Hiff |]. split.
  - intros E.
    destruct (Z.eq_dec (freq2k_of clock) 5400000) as [Hf | Hf];
      [now apply Hiff |].
    exfalso. rewrite compute_off_bypass in E by assumption.
    pose proof (proj1 (candidates_in_range _)
                  (search_result_candidate (freq2k_of clock)
                     (wrpll_get_budget_for_freq clock))) as Hr.
    rewrite E in Hr. destruct Hr as (_ & _ & k & Hk & Hp).
    cbn [rnp_p] in Hp. lia.
  - intros Hr. apply Hiff in Hr.
    unfold wrpll_compute_rnp, wrpll_compute_rnp_with. rewrite Hr.
    reflexivity.
Qed.

Lemma bypass_exactly_truncated_540MHz_witness :
  wrpll_compute_rnp 540000100 = mk_rnp 1 2 2
  <-> 540000000 <= 540000100 <= 540000099.
Proof.
  apply (bypass_exactly_truncated_540MHz 540000100).
  unfold INT_MAX. lia.
Defined.

(** ** The budget test *)

Lemma within_budget_ppm (freq2k budget : Z) (t : wrpll_rnp) :
  0 <= freq2k <= FREQ2K_MAX -> 0 <= budget <= 5000 -> bounded t ->
  let X := freq2k * rnp_p t * rnp_r2 t in
  let Y := LC_FREQ_2K * rnp_n2 t in
  within_budget freq2k budget t = true
  <-> X * (1000000 - budget) <= 1000000 * Y <= X * (1000000 + budget).
Proof.
  intros Hf Hb Ht X Y.
  rewrite within_budget_over by assumption.
  rewrite negb_true_iff. unfold over_budget, err. fold X Y.
  rewrite Z.ltb_ge.
  replace (freq2k * budget * rnp_p t * rnp_r2 t) with (X * budget)
    by (subst X; ring).
  rewrite Z.mul_sub_distr_l, Z.mul_add_distr_l.
  generalize (X * budget) as XB. generalize X as x. generalize Y as y.
  intros y x XB. lia.
Qed.

(** X5: on the domain of the search the test [a >= c] is the relative
    error bound of the comment in the source: with X = freq2k * p * r2
    and Y = LC_FREQ_2K * n2, a triplet is within the budget exactly when
    X * (1000000 - budget) <= 1000000 * Y <= X * (1000000 + budget),
    that is when |X - Y| / X is at most budget parts per million. *)
Theorem within_budget_relative_error (freq2k budget : Z) (t : wrpll_rnp) :
  0 <= freq2k <= FREQ2K_MAX -> 0 <= budget <= 5000 -> bounded t ->
  let X := freq2k * rnp_p t * rnp_r2 t in
  let Y := LC_FREQ_2K * rnp_n2 t in
  within_budget freq2k budget t = true
  <-> X * (1000000 - budget) <= 1000000 * Y <= X * (1000000 + budget).
Proof. exact (within_budget_ppm freq2k budget t). Qed.

Lemma within_budget_relative_error_witness :
  within_budget 1080000 1000 (mk_rnp 8 24 15) = true
  <-> 1080000 * 8 * 15 * (1000000 - 1000) <= 1000000 * (LC_FREQ_2K * 24)
      <= 1080000 * 8 * 15 * (1000000 + 1000).
Proof.
  apply (within_budget_relative_error 1080000 1000 (mk_rnp 8 24 15));
    unfold bounded; vm_compute; intuition discriminate.
Defined.

(** X6: raising the budget never puts a triplet over the budget: on the
    domain of the search a triplet within a budget is within every
    larger budget up to 5000. *)
Theorem within_budget_monotone (freq2k budget budget' : Z) (t : wrpll_rnp) :
  0 <= freq2k <= FREQ2K_MAX -> 0 <= budget <= budget' -> budget' <= 5000 ->
  bounded t ->
  within_budget freq2k budget t = true ->
  within_budget freq2k budget' t = true.
Proof.
  intros Hf Hb Hb' Ht.
  rewrite !within_budget_ppm by (assumption || lia). cbv zeta.
  destruct Ht as (Hp & _ & Hr). unfold FREQ2K_MAX in Hf.
  assert (HX : 0 <= freq2k * rnp_p t * rnp_r2 t)
    by (apply Z.mul_nonneg_nonneg; [apply Z.mul_nonneg_nonneg |]; lia).
  revert HX. generalize (freq2k * rnp_p t * rnp_r2 t) as x.
  generalize (LC_FREQ_2K * rnp_n2 t) as y. intros y x HX.
  rewrite !Z.mul_sub_distr_l, !Z.mul_add_distr_l.
  assert (x * budget <= x * budget') by (apply Z.mul_le_mono_nonneg_l; lia).
  lia.
Qed.

Lemma within_budget_monotone_witness :
  within_budget 1080000 4000 (mk_rnp 8 24 15) = true.
Proof.
  apply (within_budget_monotone 1080000 0 4000 (mk_rnp 8 24 15));
    unfold bounded; vm_compute; intuition discriminate.
Defined.

Lemma search_within_budget (freq2k budget : Z) (x : wrpll_rnp) :
  0 <= freq2k <= FREQ2K_MAX -> 0 <= budget <= 5000 ->
  In x candidates ->
  within_budget freq2k budget x = true ->
  within_budget freq2k budget (r2_loop freq2k budget rnp_zero) = true.
Proof.
  intros Bf Bb Hx Hw.
  destruct (search_unbeaten_better _ _ Bf Bb x Hx) as (Hxr & Hres & Hbt).
  revert Hres Hbt.
  generalize (r2_loop freq2k budget rnp_zero) as res. intros res Hres Hbt.
  rewrite (within_budget_over freq2k budget res)
    by auto using in_range_bounded.
  rewrite (within_budget_over freq2k budget x) in Hw
    by auto using in_range_bounded.
  apply negb_true_iff in Hw. unfold better in Hbt. rewrite Hw in Hbt.
  destruct (over_budget freq2k budget res); cbn [decision_table] in Hbt;
    [discriminate Hbt | reflexivity].
Qed.

(** X7: for a clock whose budget is 0, a triplet is within the budget
    only if it gives the target exactly
    (freq2k * p * r2 = LC_FREQ_2K * n2); when the enumeration holds such
    a triplet, the returned triplet is exact as well. *)
Theorem zero_budget_returns_exact (clock : Z) (x : wrpll_rnp) :
  0 <= clock <= INT_MAX -> freq2k_of clock <> 5400000 ->
  wrpll_get_budget_for_freq clock = 0 ->
  In x candidates ->
  freq2k_of clock * rnp_p x * rnp_r2 x = LC_FREQ_2K * rnp_n2 x ->
  let res := wrpll_compute_rnp clock in
  freq2k_of clock * rnp_p res * rnp_r2 res = LC_FREQ_2K * rnp_n2 res.
Proof.
  intros Hc Hf Hb Hx He res. subst res.
  rewrite compute_off_bypass by assumption. rewrite Hb.
  pose proof (freq2k_of_bounds clock Hc) as Bf.
  assert (Bb : 0 <= 0 <= 5000) by lia.
  assert (Hxr : bounded x)
    by (apply in_range_bounded; exact (proj1 (candidates_in_range x) Hx)).
  assert (Hw : within_budget (freq2k_of clock) 0 x = true).
  { apply within_budget_ppm; try assumption. cbv zeta. rewrite He. lia. }
  pose proof (search_within_budget _ _ x Bf Bb Hx Hw) as Hres.
  assert (Hrb : bounded (r2_loop (freq2k_of clock) 0 rnp_zero)).
  { apply in_range_bounded.
    exact (proj1 (candidates_in_range _) (search_result_candidate _ _)). }
  revert Hres Hrb.
  generalize (r2_loop (freq2k_of clock) 0 rnp_zero) as res.
  intros res Hres Hrb.
  apply within_budget_ppm in Hres; try assumption. cbv zeta in Hres.
  lia.
Qed.

Lemma zero_budget_returns_exact_witness :
  freq2k_of 27000000 * rnp_p (wrpll_compute_rnp 27000000)
    * rnp_r2 (wrpll_compute_rnp 27000000)
  = LC_FREQ_2K * rnp_n2 (wrpll_compute_rnp 27000000).
Proof.
  apply (zero_budget_returns_exact 27000000 (mk_rnp 30 21 14)).
  - unfold INT_MAX. lia.
  - vm_compute. discriminate.
  - reflexivity.
  - apply (proj2 (candidates_in_range (mk_rnp 30 21 14))).
    unfold in_range. cbn [rnp_p rnp_n2 rnp_r2].
    split; [| split]; [vm_compute; intuition discriminate ..| exists 15; lia].
  - vm_compute. reflexivity.
Defined.

(** ** The update rule on arbitrary inputs *)

Lemma update_with_self (freq2k budget : Z) (c : wrpll_rnp) :
  update_with freq2k budget c c = c.
Proof.
  unfold update_with. rewrite wrpll_update_rnp_replaces.
  destruct (rnp_p c =? 0); [now destruct c |].
  assert (E : mk_rnp (rnp_p c) (rnp_n2 c) (rnp_r2 c) = c) by now destruct c.
  rewrite E, replaces_irrefl. reflexivity.
Qed.

(** X8: offering the same candidate twice is the same as offering it
    once, for every frequency, budget, candidate and best record,
    wrap-around included. *)
Theorem update_idempotent (freq2k budget : Z) (best c : wrpll_rnp) :
  update_with freq2k budget (update_with freq2k budget best c) c
  = update_with freq2k budget best c.
Proof.
  destruct (update_with_choice freq2k budget best c) as [E | E]; rewrite E.
  - apply update_with_self.
  - exact E.
Qed.

Lemma update_keeps_within (freq2k budget : Z) (best c : wrpll_rnp) :
  rnp_p best <> 0 -> within_budget freq2k budget best = true ->
  within_budget freq2k budget (update_with freq2k budget best c) = true.
Proof.
  intros Hp Hw. unfold update_with. rewrite wrpll_update_rnp_replaces.
  destruct (Z.eqb_spec (rnp_p best) 0) as [E | _]; [contradiction |].
  unfold replaces, machine_terms.
  cbn [rnp_p rnp_n2 rnp_r2 t_a t_b t_c t_d t_vco_cand t_vco_best].
  pose proof Hw as Hw'. unfold within_budget in Hw'. rewrite geb_ltb in Hw'.
  apply negb_true_iff in Hw'. rewrite Hw'.
  destruct (budget_term freq2k budget (rnp_p c) (rnp_r2 c) <? _) eqn:Ea;
    cbn [decision_table]; [assumption |].
  destruct (_ >? _); [| assumption].
  unfold within_budget. cbn [rnp_p rnp_n2 rnp_r2].
  rewrite geb_ltb, Ea. reflexivity.
Qed.

(** X9: being within the budget is kept: once the best record is a
    triplet within the budget, it stays within the budget whatever
    candidates with a non-zero p are offered afterwards, for every
    frequency and budget, wrap-around included. *)
Theorem within_budget_kept (freq2k budget : Z) (l : list wrpll_rnp)
    (best : wrpll_rnp) :
  Forall (fun t => rnp_p t <> 0) l ->
  rnp_p best <> 0 ->
  within_budget freq2k budget best = true ->
  within_budget freq2k budget (fold_left (update_with freq2k budget) l best)
  = true.
Proof.
  intros Hl. revert best.
  induction Hl as [| c l Hc Hl IH]; intros best Hp Hw; cbn [fold_left].
  - exact Hw.
  - apply IH.
    + destruct (update_with_choice freq2k budget best c) as [-> | ->];
        assumption.
    + now apply update_keeps_within.
Qed.

Lemma within_budget_kept_witness :
  within_budget 270000 0
    (fold_left (update_with 270000 0) [mk_rnp 2 13 14] (mk_rnp 30 21 14))
  = true.
Proof.
  apply (within_budget_kept 270000 0 [mk_rnp 2 13 14] (mk_rnp 30 21 14)).
  - constructor; [simpl; lia | constructor].
  - simpl. lia.
  - vm_compute. reflexivity.
Defined.

(** X10: a best record within the budget is left untouched by the whole
    [p] loop of a pair (r2, n2) whose n2 * best.r2 * best.r2 does not
    exceed best.n2 * r2 * r2, for every frequency and budget: such a
    pair can be skipped. *)
Theorem settled_pair_unchanged (freq2k budget r2 n2 : Z) (best : wrpll_rnp) :
  rnp_p best <> 0 ->
  within_budget freq2k budget best = true ->
  vco_term n2 (rnp_r2 best) <= vco_term (rnp_n2 best) r2 ->
  p_loop freq2k budget r2 n2 best = best.
Proof.
  intros Hp Hw Hv. apply p_loop_settled; try assumption.
  rewrite Z.gtb_ltb. now apply Z.ltb_ge.
Qed.

Lemma settled_pair_unchanged_witness :
  p_loop 270000 0 15 14 (mk_rnp 30 21 14) = mk_rnp 30 21 14.
Proof.
  apply (settled_pair_unchanged 270000 0 15 14 (mk_rnp 30 21 14)).
  - simpl. lia.
  - vm_compute. reflexivity.
  - vm_compute. discriminate.
Defined.

(** ** The search over exact integers *)

Lemma fold_update_exact (freq2k budget : Z) (l : list wrpll_rnp) :
  0 <= freq2k <= FREQ2K_MAX -> 0 <= budget <= 5000 ->
  Forall in_range l ->
  forall best, bounded best ->
  fold_left (update_with freq2k budget) l best
  = fold_left (fun b t => update_spec freq2k budget t b) l best.
Proof.
  intros Hf Hb Hl. induction Hl as [| c l Hc Hl IH]; intros best Hbest;
    cbn [fold_left]; [reflexivity |].
  assert (Hcb : bounded (mk_rnp (rnp_p c) (rnp_n2 c) (rnp_r2 c)))
    by (destruct c; now apply in_range_bounded).
  assert (E : update_with freq2k budget best c
              = update_spec freq2k budget c best).
  { unfold update_with. rewrite wrpll_update_rnp_exact by assumption.
    now destruct c. }
  rewrite <- E. apply IH.
  unfold update_with. now apply update_bounded.
Qed.

(** X11: for a non-negative clock off the bypass the machine arithmetic
    never wraps during the search: the returned triplet is the one the
    update rule over the mathematical integers yields when folded over
    the candidates in enumeration order. *)
Theorem search_is_exact_search (clock : Z) :
  0 <= clock <= INT_MAX -> freq2k_of clock <> 5400000 ->
  wrpll_compute_rnp clock
  = fold_left
      (fun best t =>
         update_spec (clock / 100) (wrpll_get_budget_for_freq clock) t best)
      candidates rnp_zero.
Proof.
  intros Hc Hf. rewrite compute_off_bypass by assumption.
  rewrite r2_loop_candidates.
  rewrite <- (freq2k_of_nonneg clock Hc).
  apply fold_update_exact.
  - now apply freq2k_of_bounds.
  - apply budget_bounds.
  - apply Forall_forall. intros t Ht. exact (proj1 (candidates_in_range t) Ht).
  - unfold bounded, rnp_zero. cbn [rnp_p rnp_n2 rnp_r2].
    change P_MAX with 64. change N2_MAX with 199. change R2_MAX with 112. lia.
Qed.

Lemma search_is_exact_search_witness :
  wrpll_compute_rnp 19750000
  = fold_left
      (fun best t =>
         update_spec (19750000 / 100) (wrpll_get_budget_for_freq 19750000)
           t best)
      candidates rnp_zero.
Proof.
  apply (search_is_exact_search 19750000).
  - unfold INT_MAX. lia.
  - vm_compute. discriminate.
Defined.

(** X12: every triplet the search returns, the bypass triplet included,
    has 1 <= p <= 64, 1 <= n2 <= 199 and 1 <= r2 <= 112, so each
    component fits the [uint16_t] fields of the reference table it is
    compared with. *)
Theorem result_fits_uint16 (clock : Z) :
  let t := wrpll_compute_rnp clock in
  1 <= rnp_p t <= 64 /\ 1 <= rnp_n2 t <= 199 /\ 1 <= rnp_r2 t <= 112.
Proof.
  intros t. subst t.
  destruct (Z.eq_dec (freq2k_of clock) 5400000) as [E | E].
  - unfold wrpll_compute_rnp, wrpll_compute_rnp_with. rewrite E.
    cbn. lia.
  - rewrite compute_off_bypass by assumption.
    pose proof (proj1 (candidates_in_range _)
                  (search_result_candidate (freq2k_of clock)
                     (wrpll_get_budget_for_freq clock))) as Hr.
    revert Hr. generalize (r2_loop (freq2k_of clock)
                             (wrpll_get_budget_for_freq clock) rnp_zero).
    intros t Hr.
    pose proof (in_range_positive t Hr). pose proof (in_range_bounded t Hr) as Hb.
    unfold bounded in Hb. change P_MAX with 64 in Hb.
    change N2_MAX with 199 in Hb. change R2_MAX with 112 in Hb. lia.
Qed.

(** ** The enumeration visits each triplet once *)

(** X13: no triplet occurs twice in the enumeration: one call of the
    search offers every candidate (r2, n2, p) to the update rule exactly
    once. *)
Theorem candidates_NoDup : NoDup candidates.
Proof. exact candidates_distinct. Qed.

(** ** The reference table and the run of [main] *)

Lemma ascending_Sorted (l : list Z) : ascending l = true -> Sorted Z.lt l.
Proof.
  induction l as [| x l IH]; intros H; [constructor |].
  destruct l as [| y l]; [repeat constructor |].
  cbn [ascending] in H. apply andb_true_iff in H. destruct H as [Hxy Hl].
  constructor; [now apply IH |].
  constructor. now apply Z.ltb_lt.
Qed.

Lemma StronglySorted_lt_NoDup (l : list Z) :
  StronglySorted Z.lt l -> NoDup l.
Proof.
  induction 1 as [| x l Hl IH Hx]; constructor; [| assumption].
  intros Hin. rewrite Forall_forall in Hx. specialize (Hx x Hin). lia.
Qed.

(** X14: the reference table is sorted by strictly increasing clock, as
    the comment above it says the code assumes; in particular no clock
    occurs twice. *)
Theorem table_sorted_by_clock :
  StronglySorted Z.lt (map tmds_clock wrpll_tmds_clock_table)
  /\ NoDup (map tmds_clock wrpll_tmds_clock_table).
Proof.
  assert (H : StronglySorted Z.lt (map tmds_clock wrpll_tmds_clock_table)).
  { apply Sorted_StronglySorted.
    - intros x y z. apply Z.lt_trans.
    - apply ascending_Sorted. vm_compute. reflexivity. }
  split; [exact H | now apply StronglySorted_lt_NoDup].
Qed.

(** X15: run on its own table, [main] finds the failure condition false
    for every one of the entries, issues no diagnostic and reaches
    [return 0]. *)
Theorem main_passes_on_table :
  existsb mismatch wrpll_tmds_clock_table = false
  /\ main = (harness_init, 0)
  /\ exit_status (fst main) (snd main) = 0.
Proof.
  assert (E : main = (harness_init, 0)).
  { unfold main, main_on.
    exact (f_equal (fun h => (h, 0))
             (check_loop_no_mismatch wrpll_tmds_clock_table harness_init
                table_no_mismatch)). }
  split; [| split; [exact E | rewrite E; reflexivity]].
  destruct (existsb mismatch wrpll_tmds_clock_table) eqn:Ex; [| reflexivity].
  apply existsb_exists in Ex. destruct Ex as [ref [Href Hm]].
  pose proof table_no_mismatch as H. rewrite Forall_forall in H.
  rewrite (H ref Href) in Hm. discriminate Hm.
Qed.

(** ** Clocks below 100 Hz and negative clocks *)

(** X16: [clock / 100] rounds towards zero and the quotient is stored
    in a [uint64_t]: every [int] clock from -99 to 99 gives freq2k = 0,
    and a clock of -100 or less gives 2^64 - (-clock / 100), a value of
    at least 2^64 - 21474836; no such clock is rejected or takes the
    bypass. *)
Theorem freq2k_of_small_or_negative (clock : Z) :
  - INT_MAX - 1 <= clock < 100 ->
  (-100 < clock -> freq2k_of clock = 0)
  /\ (clock <= -100 -> freq2k_of clock = 2 ^ 64 - (- clock) / 100)
  /\ freq2k_of clock <> 5400000.
Proof.
  intros H. unfold INT_MAX in H.
  assert (Hq : clock < 0 /\ Z.quot clock 100 = - ((- clock) / 100)
               \/ 0 <= clock /\ Z.quot clock 100 = 0).
  { destruct (Z_lt_le_dec clock 0) as [Hn | Hp].
    - left. split; [assumption |].
      replace clock with (- (- clock)) at 1 by lia.
      rewrite Z.quot_opp_l by lia. rewrite Z.quot_div_nonneg by lia.
      reflexivity.
    - right. split; [assumption |]. apply Z.quot_small. lia. }
  assert (Hsmall : -100 < clock -> Z.quot clock 100 = 0).
  { intros Hc. destruct Hq as [[Hn ->] | [_ ->]]; [| reflexivity].
    rewrite Z.div_small by lia. reflexivity. }
  assert (Hbig : clock <= -100 ->
            freq2k_of clock = 2 ^ 64 - (- clock) / 100
            /\ 1 <= (- clock) / 100 < 21474837).
  { intros Hc. destruct Hq as [[Hn E] | [Hp _]]; [| lia].
    assert (1 <= (- clock) / 100)
      by (apply Z.div_le_lower_bound; lia).
    assert ((- clock) / 100 < 21474837)
      by (apply Z.div_lt_upper_bound; lia).
    split; [| lia]. unfold freq2k_of, u64. rewrite E.
    symmetry. apply (Z.mod_unique _ _ (-1)); lia. }
  split; [| split].
  - intros Hc. unfold freq2k_of. rewrite (Hsmall Hc). reflexivity.
  - intros Hc. exact (proj1 (Hbig Hc)).
  - destruct (Z_lt_le_dec (-100) clock) as [Hc | Hc].
    + unfold freq2k_of. rewrite (Hsmall Hc). vm_compute. discriminate.
    + destruct (Hbig Hc) as [E B]. rewrite E. lia.
Qed.

Lemma freq2k_of_small_or_negative_witness :
  freq2k_of (-250) = 2 ^ 64 - (- -250) / 100.
Proof.
  apply (freq2k_of_small_or_negative (-250)); unfold INT_MAX; lia.
Defined.
